(** * CouncilSearcher: the result card (ResultCard.vue)

    A shallow embedding of the script part of the result card: the computed
    property [highlightedSnippet] and the method [downloadTranscript],
    together with the slice of ECMAScript and of the browser that they run
    on (strings of UTF-16 code units, the regular expressions of the two
    [replace] calls, [Date], object URLs, the anchor click that saves a file,
    [console.error] and [alert]). *)

From Stdlib Require Import ZArith NArith String Ascii Bool Lia List.
Import ListNotations.

Set Implicit Arguments.

(* ================================================================== *)
(** * ECMAScript strings *)
(* ================================================================== *)

Module JS.

(** A String value is a finite sequence of 16-bit code units. *)
Definition unit16 := N.
Definition str := list unit16.

(** The string literal with the given (Latin-1) characters. *)
Definition lit (s : string) : str := map N_of_ascii (list_ascii_of_string s).

Definition unit_eqb (a b : unit16) : bool := N.eqb a b.

Fixpoint str_eqb (a b : str) : bool :=
  match a, b with
  | [], [] => true
  | x :: a', y :: b' => unit_eqb x y && str_eqb a' b'
  | _, _ => false
  end.

(** ** Character classes *)

Local Open Scope N_scope.

Definition between (lo hi c : unit16) : bool := N.leb lo c && N.leb c hi.

(** LineTerminator: LF, CR, LS, PS. *)
Definition isLineTerminator (c : unit16) : bool :=
  N.eqb c 10 || N.eqb c 13 || N.eqb c 8232 || N.eqb c 8233.

(** WhiteSpace: TAB, VT, FF, ZWNBSP and the space separators (Zs). *)
Definition isWhiteSpace (c : unit16) : bool :=
  N.eqb c 9 || N.eqb c 11 || N.eqb c 12 || N.eqb c 32 || N.eqb c 160 ||
  N.eqb c 5760 || between 8192 8202 c || N.eqb c 8239 || N.eqb c 8287 ||
  N.eqb c 12288 || N.eqb c 65279.

(** The class [\s], also what [trim] strips: WhiteSpace or LineTerminator. *)
Definition isSpace (c : unit16) : bool := isWhiteSpace c || isLineTerminator c.

Definition isLower (c : unit16) : bool := between 97 122 c.   (* a-z *)
Definition isUpper (c : unit16) : bool := between 65 90 c.    (* A-Z *)
Definition isDigit (c : unit16) : bool := between 48 57 c.    (* 0-9 *)

Local Close Scope N_scope.

(** ** String.prototype methods used by the card *)

(** [s.charAt(0)]: the first code unit as a string, or the empty string. *)
Definition charAt0 (s : str) : str :=
  match s with
  | [] => []
  | c :: _ => [c]
  end.

(** [s.slice(k)] for a non-negative [k]. *)
Definition slice_from (k : nat) (s : str) : str := skipn k s.

(** [s.trimStart()], [s.trimEnd()], [s.trim()]. *)
Fixpoint trimStart (s : str) : str :=
  match s with
  | [] => []
  | c :: s' => if isSpace c then trimStart s' else s
  end.

Definition trimEnd (s : str) : str := rev (trimStart (rev s)).

Definition trim (s : str) : str := trimEnd (trimStart s).

(** [s.split(sep)] for a separator of one code unit [sep]: the pieces between
    the occurrences of [sep]; the empty string gives one empty piece. *)
Fixpoint split (sep : unit16) (s : str) : list str :=
  match s with
  | [] => [[]]
  | c :: s' =>
      if unit_eqb c sep then [] :: split sep s'
      else match split sep s' with
           | [] => [[c]]
           | p :: ps => (c :: p) :: ps
           end
  end.

(** [a.slice(0, n)] on an array. *)
Definition array_slice0 (A : Type) (n : nat) (a : list A) : list A := firstn n a.

(** [a.join('')] on an array of strings. *)
Definition join_empty (a : list str) : str := concat a.

(** [s.padStart(n, fill)]. *)
Fixpoint repeat_to (n : nat) (fill cur : str) : str :=
  match n with
  | O => []
  | S n' =>
      match cur with
      | [] => match fill with
              | [] => []
              | f :: fs => f :: repeat_to n' fill fs
              end
      | c :: cs => c :: repeat_to n' fill cs
      end
  end.

Definition padStart (n : nat) (fill s : str) : str :=
  if Nat.leb n (length s) then s
  else match fill with
       | [] => s
       | _ => repeat_to (n - length s) fill fill ++ s
       end.

(** ** Numbers

    The Date getters return an integer or NaN; these are the Number values
    the card handles. *)
Inductive num :=
  | NaN
  | Int (z : Z).

(** [x + k] for an integer [k]. *)
Definition num_add (x : num) (k : Z) : num :=
  match x with
  | NaN => NaN
  | Int z => Int (z + k)
  end.

Definition digit (d : Z) : unit16 := Z.to_N (48 + d).

(** The decimal digits of a non-negative integer, most significant first. *)
Fixpoint digits_fuel (fuel : nat) (z : Z) (acc : str) : str :=
  match fuel with
  | O => acc
  | S f =>
      if Z.ltb z 10 then digit z :: acc
      else digits_fuel f (z / 10) (digit (z mod 10) :: acc)
  end.

Definition digits (z : Z) : str := digits_fuel (S (Z.to_nat (Z.log2 z))) z [].

(** The number that a string of decimal digits writes. *)
Definition decimal_value (s : str) : Z :=
  fold_left (fun acc c => (10 * acc + (Z.of_N c - 48))%Z) s 0%Z.

(** [String(x)]. *)
Definition toString (x : num) : str :=
  match x with
  | NaN => lit "NaN"
  | Int z => if Z.ltb z 0 then 45%N :: digits (- z) else digits z
  end.

(** ** String.prototype.toUpperCase

    On a string of ASCII code units the result is fixed: a-z go to A-Z and
    nothing else changes.  The Unicode case tables behind the other strings
    are not reproduced; the host's function is taken as it is. *)
Section ToUpperCase.

Variable hostToUpperCase : str -> str.

Definition isAscii (c : unit16) : bool := N.ltb c 128.

Definition asciiUpper (c : unit16) : unit16 :=
  if isLower c then (c - 32)%N else c.

Definition toUpperCase (s : str) : str :=
  if forallb isAscii s then map asciiUpper s else hostToUpperCase s.

End ToUpperCase.

(** ** Regular expressions

    The patterns of the card: a sequence of single-unit classes, capturing
    groups and lazily starred classes, matched by backtracking. *)
Inductive regex :=
  | Class (p : unit16 -> bool)       (* one code unit of the class *)
  | LazyStar (p : unit16 -> bool)    (* class*? *)
  | Seq (r1 r2 : regex)
  | Group (r : regex).               (* ( r ) *)

(** A match state: the input still to read and the captures so far. *)
Definition captures := list str.
Definition cont := str -> captures -> option (str * captures).

(** [p*?] followed by [k]: as few units of [p] as [k] allows. *)
Fixpoint lazy_star (p : unit16 -> bool) (s : str) (caps : captures)
    (k : cont) : option (str * captures) :=
  match k s caps with
  | Some r => Some r
  | None =>
      match s with
      | [] => None
      | c :: s' => if p c then lazy_star p s' caps k else None
      end
  end.

Fixpoint rmatch (r : regex) (s : str) (caps : captures) (k : cont)
    : option (str * captures) :=
  match r with
  | Class p =>
      match s with
      | [] => None
      | c :: s' => if p c then k s' caps else None
      end
  | LazyStar p => lazy_star p s caps k
  | Seq r1 r2 => rmatch r1 s caps (fun s1 caps1 => rmatch r2 s1 caps1 k)
  | Group r1 =>
      rmatch r1 s caps
        (fun s1 caps1 => k s1 (caps1 ++ [firstn (length s - length s1) s]))
  end.

(** A match of [r] at the start of [s]: its length and its captures. *)
Definition exec_at (r : regex) (s : str) : option (nat * captures) :=
  match rmatch r s [] (fun s1 caps1 => Some (s1, caps1)) with
  | Some (s1, caps1) => Some (length s - length s1, caps1)
  | None => None
  end.

(** GetSubstitution: the replacement text for one match.  [before] and
    [after] are the parts of the subject around [matched]. *)
Definition dollar : unit16 := 36%N.

Definition digit_value (c : unit16) : option nat :=
  if isDigit c then Some (N.to_nat (c - 48)) else None.

Definition capture_ref (caps : captures) (index : nat) : option str :=
  match index with
  | O => None
  | S i => nth_error caps i
  end.

Fixpoint GetSubstitution (matched before after : str) (caps : captures)
    (template : str) : str :=
  match template with
  | [] => []
  | c :: t =>
      if negb (unit_eqb c dollar) then
        c :: GetSubstitution matched before after caps t
      else
        match t with
        | [] => [c]
        | d :: t1 =>
            if unit_eqb d dollar then
              dollar :: GetSubstitution matched before after caps t1
            else if unit_eqb d 96%N then
              before ++ GetSubstitution matched before after caps t1
            else if unit_eqb d 38%N then
              matched ++ GetSubstitution matched before after caps t1
            else if unit_eqb d 39%N then
              after ++ GetSubstitution matched before after caps t1
            else
              match digit_value d with
              | None => c :: GetSubstitution matched before after caps t
              | Some n1 =>
                  let one :=
                    match capture_ref caps n1 with
                    | Some cap =>
                        cap ++ GetSubstitution matched before after caps t1
                    | None =>
                        c :: d :: GetSubstitution matched before after caps t1
                    end in
                  match t1 with
                  | [] => one
                  | e :: t2 =>
                      match digit_value e with
                      | None => one
                      | Some n2 =>
                          match capture_ref caps (10 * n1 + n2) with
                          | Some cap =>
                              cap ++
                              GetSubstitution matched before after caps t2
                          | None => one
                          end
                      end
                  end
              end
        end
  end.

(** [s.replace(r, template)] for a pattern [r] with the global flag.
    [before] is the part of the subject already passed, last unit first;
    [skip] counts the units of the current match still to pass.  An empty
    match advances by one unit, which is copied. *)
Fixpoint replace_from (r : regex) (template : str) (before s : str)
    (skip : nat) : str :=
  match skip with
  | S n =>
      match s with
      | [] => []
      | c :: s' => replace_from r template (c :: before) s' n
      end
  | O =>
      match exec_at r s with
      | Some (len, caps) =>
          let rep :=
            GetSubstitution (firstn len s) (rev before) (skipn len s)
              caps template in
          match s with
          | [] => rep
          | c :: s' =>
              match len with
              | O => rep ++ c :: replace_from r template (c :: before) s' 0
              | S n => rep ++ replace_from r template (c :: before) s' n
              end
          end
      | None =>
          match s with
          | [] => []
          | c :: s' => c :: replace_from r template (c :: before) s' 0
          end
      end
  end.

Definition replace_global (r : regex) (template : str) (s : str) : str :=
  replace_from r template [] s 0.

End JS.

(* ================================================================== *)
(** * ECMAScript dates *)
(* ================================================================== *)

Module JSDate.

Import JS.
Local Open Scope Z_scope.

(** ** Day number and time within day; years, months, dates *)

Definition msPerDay : Z := 86400000.

Definition Day (t : Z) : Z := t / msPerDay.

Definition DaysInYear (y : Z) : Z :=
  if negb (y mod 4 =? 0) then 365
  else if negb (y mod 100 =? 0) then 366
  else if negb (y mod 400 =? 0) then 365
  else 366.

Definition DayFromYear (y : Z) : Z :=
  365 * (y - 1970) + (y - 1969) / 4 - (y - 1901) / 100 + (y - 1601) / 400.

Definition TimeFromYear (y : Z) : Z := msPerDay * DayFromYear y.

(** The largest [y] with [TimeFromYear y <= t], found next to the year that
    the mean length of a year (146097 days in 400 years) gives. *)
Definition YearFromTime (t : Z) : Z :=
  let y := 1970 + (Day t * 400) / 146097 in
  if TimeFromYear (y + 1) <=? t then y + 1
  else if TimeFromYear y <=? t then y
  else y - 1.

Definition InLeapYear (t : Z) : Z :=
  if DaysInYear (YearFromTime t) =? 366 then 1 else 0.

Definition DayWithinYear (t : Z) : Z := Day t - DayFromYear (YearFromTime t).

Definition MonthFromTime (t : Z) : Z :=
  let d := DayWithinYear t in
  let leap := InLeapYear t in
  if d <? 31 then 0
  else if d <? 59 + leap then 1
  else if d <? 90 + leap then 2
  else if d <? 120 + leap then 3
  else if d <? 151 + leap then 4
  else if d <? 181 + leap then 5
  else if d <? 212 + leap then 6
  else if d <? 243 + leap then 7
  else if d <? 273 + leap then 8
  else if d <? 304 + leap then 9
  else if d <? 334 + leap then 10
  else 11.

Definition DateFromTime (t : Z) : Z :=
  let d := DayWithinYear t in
  let leap := InLeapYear t in
  match MonthFromTime t with
  | 0 => d + 1
  | 1 => d - 30
  | 2 => d - 58 - leap
  | 3 => d - 89 - leap
  | 4 => d - 119 - leap
  | 5 => d - 150 - leap
  | 6 => d - 180 - leap
  | 7 => d - 211 - leap
  | 8 => d - 242 - leap
  | 9 => d - 272 - leap
  | 10 => d - 303 - leap
  | _ => d - 333 - leap
  end.

(** ** Building a time value *)

(** The day number of the first day of month [m] (0-11) of year [y]. *)
Definition monthStart (y m : Z) : Z :=
  let leap := if DaysInYear y =? 366 then 1 else 0 in
  DayFromYear y +
  match m with
  | 0 => 0
  | 1 => 31
  | 2 => 59 + leap
  | 3 => 90 + leap
  | 4 => 120 + leap
  | 5 => 151 + leap
  | 6 => 181 + leap
  | 7 => 212 + leap
  | 8 => 243 + leap
  | 9 => 273 + leap
  | 10 => 304 + leap
  | _ => 334 + leap
  end.

Definition DaysInMonth (y m : Z) : Z :=
  let leap := if DaysInYear y =? 366 then 1 else 0 in
  match m with
  | 1 => 28 + leap
  | 3 | 5 | 8 | 10 => 30
  | _ => 31
  end.

Definition MakeDay (year month date : Z) : Z :=
  monthStart (year + month / 12) (month mod 12) + date - 1.

Definition MakeTime (hour min sec ms : Z) : Z :=
  hour * 3600000 + min * 60000 + sec * 1000 + ms.

Definition MakeDate (day time : Z) : Z := day * msPerDay + time.

(** ** Date.parse

    The complete form of the Date Time String Format with the UTC
    designator, [YYYY-MM-DDTHH:mm:ssZ] or [YYYY-MM-DDTHH:mm:ss.sssZ], with
    every field in range, is decoded here.  What any other string parses to
    (the other forms of the format, and the formats an engine accepts
    beyond it) is the host's answer. *)

(** Exactly [n] decimal digits at the start of [s]. *)
Fixpoint read_digits (n : nat) (acc : Z) (s : str) : option (Z * str) :=
  match n with
  | O => Some (acc, s)
  | S n' =>
      match s with
      | [] => None
      | c :: s' =>
          if isDigit c then read_digits n' (10 * acc + (Z.of_N c - 48)) s'
          else None
      end
  end.

(** The code unit [c] at the start of [s]. *)
Definition read_unit (c : unit16) (s : str) : option str :=
  match s with
  | [] => None
  | x :: s' => if unit_eqb x c then Some s' else None
  end.

Definition bind_opt (A B : Type) (o : option A) (f : A -> option B)
    : option B :=
  match o with
  | Some a => f a
  | None => None
  end.

Notation "'let?' x ':=' o 'in' k" := (bind_opt o (fun x => k))
  (at level 10, x pattern, o at level 100, k at level 200).

Definition in_range (lo hi z : Z) : bool := (lo <=? z) && (z <=? hi).

Definition parseUTCDateTime (s : str) : option Z :=
  let? (year, s) := read_digits 4 0 s in
  let? s := read_unit 45%N s in
  let? (month, s) := read_digits 2 0 s in
  let? s := read_unit 45%N s in
  let? (date, s) := read_digits 2 0 s in
  let? s := read_unit 84%N s in
  let? (hour, s) := read_digits 2 0 s in
  let? s := read_unit 58%N s in
  let? (min, s) := read_digits 2 0 s in
  let? s := read_unit 58%N s in
  let? (sec, s) := read_digits 2 0 s in
  let? (ms, s) :=
    match read_unit 46%N s with
    | Some s' => read_digits 3 0 s'
    | None => Some (0, s)
    end in
  let? s := read_unit 90%N s in
  match s with
  | _ :: _ => None
  | [] =>
      if in_range 1 12 month
         && in_range 1 (DaysInMonth year (month - 1)) date
         && in_range 0 23 hour && in_range 0 59 min && in_range 0 59 sec
      then Some (MakeDate (MakeDay year (month - 1) date)
                          (MakeTime hour min sec ms))
      else None
  end.

Section Host.

(** The offset of local time from UTC, in milliseconds, at a UTC time. *)
Variable LocalTZA : Z -> Z.
(** The host's Date.parse; [None] is NaN. *)
Variable hostDateParse : str -> option Z.

Definition parse (s : str) : option Z :=
  match parseUTCDateTime s with
  | Some t => Some t
  | None => hostDateParse s
  end.

(** A Date object: its time value, [None] for an invalid date. *)
Record Date := mkDate { DateValue : option Z }.

(** [new Date(s)] for a string [s]. *)
Definition newDate (s : str) : Date := mkDate (parse s).

Definition LocalTime (t : Z) : Z := t + LocalTZA t.

Definition getter (f : Z -> Z) (d : Date) : num :=
  match DateValue d with
  | None => NaN
  | Some t => Int (f (LocalTime t))
  end.

Definition getDate : Date -> num := getter DateFromTime.
Definition getMonth : Date -> num := getter MonthFromTime.
Definition getFullYear : Date -> num := getter YearFromTime.

End Host.

End JSDate.

(* ================================================================== *)
(** * The browser around the card *)
(* ================================================================== *)

Module Web.

Import JS.

(** The content of a Blob or of a response body. *)
Definition bytes := list N.

(** [new Blob(parts)]: the parts one after the other. *)
Definition newBlob (parts : list bytes) : bytes := concat parts.

(** What the network does with a GET request. *)
Inductive HttpOutcome :=
  | NoResponse                                (* refused, timed out, ... *)
  | Response (status : Z) (body : bytes).

(** What a rejected axios promise carries. *)
Inductive Error :=
  | NetworkError
  | BadStatus (status : Z).

(** axios' default [validateStatus]. *)
Definition validateStatus (status : Z) : bool :=
  (200 <=? status)%Z && (status <? 300)%Z.

(** An [a] element. *)
Record Anchor := mkAnchor {
  href : option str;
  download : option str
}.

(** What the page does that can be seen from outside, oldest first. *)
Inductive Event :=
  | Request (url : str)
  | CreateObjectURL (url : str)
  | RevokeObjectURL (url : str)
  | AppendChild (a : Anchor)
  | Click (a : Anchor)
  | Save (name : str) (content : bytes)       (* a file handed to the user *)
  | RemoveChild (a : Anchor)
  | ConsoleError (msg : str) (e : Error)
  | Alert (msg : str).

Record Browser := mkBrowser {
  network : str -> HttpOutcome;         (* the answer to a GET of each URL *)
  objectURLs : list (str * bytes);      (* the live object URLs *)
  issued : N;                           (* object URLs made so far *)
  bodyChildren : list Anchor;           (* what the card put in the body *)
  log : list Event
}.

Definition emit (e : Event) (b : Browser) : Browser :=
  mkBrowser (network b) (objectURLs b) (issued b) (bodyChildren b)
            (log b ++ [e]).

(** [axios.get(url, { responseType: 'blob' })], awaited. *)
Definition axios_get (url : str) (b : Browser) : (bytes + Error) * Browser :=
  let b' := emit (Request url) b in
  match network b url with
  | NoResponse => (inr NetworkError, b')
  | Response status body =>
      if validateStatus status then (inl body, b')
      else (inr (BadStatus status), b')
  end.

(** The n-th object URL of the page. *)
Definition objectURL (n : N) : str := lit "blob:" ++ digits (Z.of_N n).

Definition createObjectURL (blob : bytes) (b : Browser) : str * Browser :=
  let url := objectURL (issued b) in
  (url,
   emit (CreateObjectURL url)
     (mkBrowser (network b) ((url, blob) :: objectURLs b) (N.succ (issued b))
                (bodyChildren b) (log b))).

Definition revokeObjectURL (url : str) (b : Browser) : Browser :=
  emit (RevokeObjectURL url)
    (mkBrowser (network b)
       (filter (fun e => negb (str_eqb (fst e) url)) (objectURLs b))
       (issued b) (bodyChildren b) (log b)).

Fixpoint resolve (url : str) (store : list (str * bytes)) : option bytes :=
  match store with
  | [] => None
  | (u, blob) :: rest => if str_eqb u url then Some blob else resolve url rest
  end.

Definition appendChild (a : Anchor) (b : Browser) : Browser :=
  emit (AppendChild a)
    (mkBrowser (network b) (objectURLs b) (issued b) (bodyChildren b ++ [a])
               (log b)).

(** [a.click()]: an anchor with a [download] attribute whose [href] is a live
    object URL saves the blob under the attribute's value. *)
Definition click (a : Anchor) (b : Browser) : Browser :=
  let b' := emit (Click a) b in
  match href a, download a with
  | Some url, Some name =>
      match resolve url (objectURLs b) with
      | Some blob => emit (Save name blob) b'
      | None => b'
      end
  | _, _ => b'
  end.

Fixpoint remove_first (a : Anchor) (l : list Anchor)
    (same : Anchor -> Anchor -> bool) : list Anchor :=
  match l with
  | [] => []
  | x :: l' => if same x a then l' else x :: remove_first a l' same
  end.

Definition opt_eqb (x y : option str) : bool :=
  match x, y with
  | None, None => true
  | Some u, Some v => str_eqb u v
  | _, _ => false
  end.

Definition anchor_eqb (x y : Anchor) : bool :=
  opt_eqb (href x) (href y) && opt_eqb (download x) (download y).

(** [a.remove()]. *)
Definition remove (a : Anchor) (b : Browser) : Browser :=
  emit (RemoveChild a)
    (mkBrowser (network b) (objectURLs b) (issued b)
               (remove_first a (bodyChildren b) anchor_eqb) (log b)).

Definition console_error (msg : str) (e : Error) (b : Browser) : Browser :=
  emit (ConsoleError msg e) b.

Definition alert (msg : str) (b : Browser) : Browser := emit (Alert msg) b.

(** The files saved, the alerts shown, the requests sent. *)
Definition saved (l : list Event) : list (str * bytes) :=
  flat_map (fun e => match e with Save n c => [(n, c)] | _ => [] end) l.

Definition alerts (l : list Event) : list str :=
  flat_map (fun e => match e with Alert m => [m] | _ => [] end) l.

Definition requests (l : list Event) : list str :=
  flat_map (fun e => match e with Request u => [u] | _ => [] end) l.

(** The object URLs made and the object URLs revoked. *)
Definition created (l : list Event) : list str :=
  flat_map (fun e => match e with CreateObjectURL u => [u] | _ => [] end) l.

Definition revoked (l : list Event) : list str :=
  flat_map (fun e => match e with RevokeObjectURL u => [u] | _ => [] end) l.

End Web.

(* ================================================================== *)
(** * The result card *)
(* ================================================================== *)

Module ResultCard.

Import JS JSDate.

(** The [result] prop. *)
Record SearchResult := mkSearchResult {
  uid : str;
  title : str;
  snippet : str;
  datetime : str;
  start_time : str;
  link : str;
  authority : str
}.

(** The component instance: it has the one prop and no data of its own. *)
Record Component := mkComponent {
  result : SearchResult
}.

(** The card runs on its instance and on the browser. *)
Record Machine := mkMachine {
  this : Component;
  browser : Web.Browser
}.

(** ** Statements that may throw

    A method is a function of the machine that completes normally or
    throws.  What can throw in the card is the awaited request; the DOM and
    URL calls of the method do not throw in a document with a body, and none
    of the string and date operations does.  A run is taken as a whole:
    nothing else touches the instance or the browser while the request is
    awaited. *)

Inductive Completion (A : Type) :=
  | Normal (a : A)
  | Throw (e : Web.Error).

Arguments Normal {A} a.
Arguments Throw {A} e.

Definition M (A : Type) := Machine -> Completion A * Machine.

Definition ret (A : Type) (a : A) : M A := fun m => (Normal a, m).

Definition bind (A B : Type) (c : M A) (k : A -> M B) : M B :=
  fun m =>
    match c m with
    | (Normal a, m') => k a m'
    | (Throw e, m') => (Throw e, m')
    end.

Definition try_catch (A : Type) (c : M A) (handler : Web.Error -> M A) : M A :=
  fun m =>
    match c m with
    | (Normal a, m') => (Normal a, m')
    | (Throw e, m') => handler e m'
    end.

Notation "x <- c ;; k" := (bind c (fun x => k))
  (at level 61, c at next level, right associativity).
Notation "c ;; k" := (bind c (fun _ => k))
  (at level 61, right associativity).

(** [this.result.f] *)
Definition read (A : Type) (f : SearchResult -> A) : M A :=
  fun m => (Normal (f (result (this m))), m).

(** A browser call that cannot throw, and the awaited promise. *)
Definition call (A : Type) (f : Web.Browser -> A * Web.Browser) : M A :=
  fun m => let (a, b) := f (browser m) in (Normal a, mkMachine (this m) b).

Definition exec (f : Web.Browser -> Web.Browser) : M unit :=
  call (fun b => (tt, f b)).

Definition await (A : Type)
    (f : Web.Browser -> (A + Web.Error) * Web.Browser) : M A :=
  fun m =>
    match f (browser m) with
    | (inl a, b) => (Normal a, mkMachine (this m) b)
    | (inr e, b) => (Throw e, mkMachine (this m) b)
    end.

(** ** The patterns and the markup *)

Definition is_unit (c : unit16) : unit16 -> bool := fun x => unit_eqb x c.

Definition open_bracket : unit16 := 91%N.
Definition close_bracket : unit16 := 93%N.
Definition space : unit16 := 32%N.
Definition quote : unit16 := 34%N.

(** [.]: any code unit but a line terminator. *)
Definition dot (c : unit16) : bool := negb (isLineTerminator c).

(** [/\[(.*?)\]/] *)
Definition bracket_pattern : regex :=
  Seq (Class (is_unit open_bracket))
      (Seq (Group (LazyStar dot)) (Class (is_unit close_bracket))).

(** [/[^a-zA-Z0-9\s]/] *)
Definition other_pattern : regex :=
  Class (fun c => negb (isLower c || isUpper c || isDigit c || isSpace c)).

Definition span_open : str :=
  lit "<span class=" ++ [quote] ++ lit "highlight" ++ [quote] ++ lit ">".
Definition span_close : str := lit "</span>".

(** The replacement text of the highlight, with its [$1]. *)
Definition span_template : str := span_open ++ lit "$1" ++ span_close.

(** ** computed: highlightedSnippet *)

(** [s.replace(/\[(.*?)\]/g, template)], the template being the highlight
    span around [$1]. *)
Definition highlight (s : str) : str :=
  replace_global bracket_pattern span_template s.

(** The same scan, resumed after [before] (last unit first). *)
Definition highlight_from (before s : str) : str :=
  replace_from bracket_pattern span_template before s 0.

Definition highlightedSnippet : M str :=
  s <- read snippet ;;
  ret (highlight s).

(** ** methods: downloadTranscript *)

Section Host.

Variable API_BASE : str.
Variable LocalTZA : Z -> Z.
Variable hostDateParse : str -> option Z.
Variable hostToUpperCase : str -> str.

(** The locals of the method that make up the file name, as functions of
    the fields they are computed from ([authority_of] and [title_of] for the
    locals [authority] and [title], whose names the fields have). *)
Definition authority_of (a : str) : str :=
  toUpperCase hostToUpperCase (charAt0 a) ++ slice_from 1 a.

Definition title_of (t : str) : str :=
  join_empty
    (array_slice0 3 (split space (trim (replace_global other_pattern [] t)))).

Definition date_str_of (dt : str) : str :=
  let date := newDate hostDateParse dt in
  let day := padStart 2 (lit "0") (toString (getDate LocalTZA date)) in
  let month :=
    padStart 2 (lit "0") (toString (num_add (getMonth LocalTZA date) 1)) in
  let year := toString (getFullYear LocalTZA date) in
  year ++ lit "-" ++ month ++ lit "-" ++ day.

Definition filename_of (authority title date_str : str) : str :=
  authority ++ lit "-" ++ title ++ lit "-[" ++ date_str ++ lit "].txt".

(** The address of the transcript of the meeting [id]. *)
Definition transcript_url (id : str) : str :=
  API_BASE ++ lit "/meetings/download_transcript/" ++ id.

Definition downloadTranscript : M unit :=
  try_catch
    (id <- read uid ;;
     response <- await (Web.axios_get (transcript_url id)) ;;
     a <- read authority ;;
     let authority := authority_of a in
     t <- read title ;;
     let title := title_of t in
     dt <- read datetime ;;
     let date_str := date_str_of dt in
     let filename := filename_of authority title date_str in
     url <- call (Web.createObjectURL (Web.newBlob [response])) ;;
     let link := Web.mkAnchor None None in
     let link := Web.mkAnchor (Some url) (Web.download link) in
     let link := Web.mkAnchor (Web.href link) (Some filename) in
     exec (Web.appendChild link) ;;
     exec (Web.click link) ;;
     exec (Web.remove link) ;;
     exec (Web.revokeObjectURL url))
    (fun error =>
       exec (Web.console_error (lit "Error downloading transcript:") error) ;;
       exec (Web.alert
               (lit "Failed to download transcript. Please try again."))).

(** The file name that a run on [m] builds. *)
Definition filename_on (m : Machine) : str :=
  let r := result (this m) in
  filename_of (authority_of (authority r)) (title_of (title r))
    (date_str_of (datetime r)).

(** What the endpoint answers to the request of a run on [m]. *)
Definition answer (m : Machine) : Web.HttpOutcome :=
  Web.network (browser m) (transcript_url (uid (result (this m)))).

(** The error of a run on [m] whose request fails. *)
Definition failure (m : Machine) : option Web.Error :=
  match answer m with
  | Web.NoResponse => Some Web.NetworkError
  | Web.Response status _ =>
      if Web.validateStatus status then None
      else Some (Web.BadStatus status)
  end.

End Host.

(** What a run from [m] to [m'] added to the log. *)
Definition emitted (m m' : Machine) : list Web.Event :=
  skipn (length (Web.log (browser m))) (Web.log (browser m')).

(** The two messages of the failure path. *)
Definition console_message : str := lit "Error downloading transcript:".
Definition alert_message : str :=
  lit "Failed to download transcript. Please try again.".

(** The anchor that the method builds and clicks. *)
Definition download_link (url filename : str) : Web.Anchor :=
  Web.mkAnchor (Some url) (Some filename).

End ResultCard.

(* ================================================================== *)
(** * The descriptions the card is compared with *)
(* ================================================================== *)

Module Described.

Import JS JSDate.

(** ** The short title, as described

    Strip every character that is not a letter, digit or whitespace; trim;
    split on whitespace; take at most the first three tokens; concatenate
    them. *)

Definition kept (c : unit16) : bool :=
  isLower c || isUpper c || isDigit c || isSpace c.

Definition strip (t : str) : str := filter kept t.

(** The tokens of a string: its maximal runs without whitespace. *)
Fixpoint tokens (s : str) : list str :=
  match s with
  | [] => []
  | c :: s' =>
      if isSpace c then tokens s'
      else
        match s' with
        | [] => [[c]]
        | d :: _ =>
            if isSpace d then [c] :: tokens s'
            else
              match tokens s' with
              | [] => [[c]]
              | w :: ws => (c :: w) :: ws
              end
        end
  end.

Definition title_tokens (t : str) : list str := tokens (trim (strip t)).

(** A piece that reads as a token: not empty, and without whitespace. *)
Definition token_like (p : str) : bool :=
  match p with
  | [] => false
  | _ :: _ => forallb (fun c => negb (isSpace c)) p
  end.

Definition short_title (t : str) : str := concat (firstn 3 (title_tokens t)).

(** ** The highlight, as described

    The bracket, the shortest run of characters, the closing bracket: the
    run is what comes before the first closing bracket. *)
Fixpoint until_close (s : str) : option (str * str) :=
  match s with
  | [] => None
  | c :: s' =>
      if unit_eqb c ResultCard.close_bracket then Some ([], s')
      else
        match until_close s' with
        | Some (x, rest) => Some (c :: x, rest)
        | None => None
        end
  end.

(** ** The date, as written: two digits, zero-padded *)
Definition two_digits (n : Z) : str := [digit (n / 10); digit (n mod 10)].

(** The calendar date of a day number: year, month (1-12), day of month. *)
Record Civil := mkCivil { year : Z; month : Z; day : Z }.

Definition civil_of_time (t : Z) : Civil :=
  mkCivil (YearFromTime t) (MonthFromTime t + 1) (DateFromTime t).

Definition written (c : Civil) : str :=
  toString (Int (year c)) ++ lit "-" ++ two_digits (month c) ++ lit "-"
  ++ two_digits (day c).

(** ** The calendar, counted on its own

    The Gregorian calendar without the algorithms of the Date object: leap
    years, the lengths of the months, and the number of the day of a date,
    1970-01-01 being day 0. *)
Definition is_leap (y : Z) : bool :=
  (((y mod 4 =? 0) && negb (y mod 100 =? 0)) || (y mod 400 =? 0))%Z.

Definition month_length (y m : Z) : Z :=
  match m with
  | 2 => if is_leap y then 29 else 28
  | 4 | 6 | 9 | 11 => 30
  | _ => 31
  end%Z.

(** The leap years among the years 1 to [y] - 1. *)
Definition leap_years_before (y : Z) : Z :=
  ((y - 1) / 4 - (y - 1) / 100 + (y - 1) / 400)%Z.

(** The days of the months 1 to [m] - 1 of the year [y]. *)
Definition days_before_month (y m : Z) : Z :=
  fold_left Z.add
    (map (fun k => month_length y (Z.of_nat k)) (seq 1 (Z.to_nat (m - 1))))
    0%Z.

Definition days_from_civil (y m d : Z) : Z :=
  (365 * (y - 1970) + (leap_years_before y - leap_years_before 1970)
   + days_before_month y m + (d - 1))%Z.

(** The number of the local day of the time value [t] where local time is
    [offset] milliseconds ahead of UTC. *)
Definition local_day (t offset : Z) : Z := ((t + offset) / 86400000)%Z.

End Described.

(* ================================================================== *)
(** * A card to try things on *)
(* ================================================================== *)

Module Example.

Import JS ResultCard.

(** A host in UTC whose parser knows no format but the one decoded above
    and whose case tables leave everything else alone. *)
Definition utc : Z -> Z := fun _ => 0%Z.
(** Hosts fourteen hours ahead of UTC and eleven hours behind it. *)
Definition east14 : Z -> Z := fun _ => 50400000%Z.
Definition west11 : Z -> Z := fun _ => (-39600000)%Z.
Definition no_host_parse : str -> option Z := fun _ => None.
Definition plain_upper : str -> str := fun s => s.
Definition api : str := lit "https://api.example".

Definition march : SearchResult :=
  mkSearchResult (lit "abc123") (lit "Full Council Meeting - March")
    (lit "the [budget] was agreed") (lit "2024-03-05T10:00:00Z")
    (lit "00:10:00") (lit "https://video.example/1") (lit "council").

(** The same meeting with a date that does not parse and a title of
    punctuation only. *)
Definition undated : SearchResult :=
  mkSearchResult (lit "abc123") (lit "?!") (lit "no brackets")
    (lit "some day") (lit "00:10:00") (lit "https://video.example/1")
    (lit "council").

Definition transcript : Web.bytes := [72; 105; 10]%N.

Definition online : Web.Browser :=
  Web.mkBrowser (fun _ => Web.Response 200 transcript) [] 0 [] [].

Definition offline : Web.Browser :=
  Web.mkBrowser (fun _ => Web.NoResponse) [] 0 [] [].

Definition card (r : SearchResult) (b : Web.Browser) : Machine :=
  mkMachine (mkComponent r) b.

Definition run : M unit := downloadTranscript api utc no_host_parse plain_upper.

End Example.

(* ================================================================== *)
(** * Shapes of input, and repeated runs *)
(* ================================================================== *)

Module Shapes.

Import JS ResultCard.

(** ** Marked text

    A snippet as a search back end marks it: stretches of plain text and
    bracketed stretches, one after the other. *)
Inductive segment :=
  | Plain (s : str)
  | Hit (s : str).

Definition marked_segment (g : segment) : str :=
  match g with
  | Plain s => s
  | Hit s => open_bracket :: s ++ [close_bracket]
  end.

Definition marked (segs : list segment) : str := flat_map marked_segment segs.

(** The same text with each bracketed stretch in the highlight span. *)
Definition span_segment (g : segment) : str :=
  match g with
  | Plain s => s
  | Hit s => span_open ++ s ++ span_close
  end.

Definition spans (segs : list segment) : str := flat_map span_segment segs.

Definition no_unit (c : unit16) (s : str) : bool :=
  forallb (fun x => negb (unit_eqb x c)) s.

(** Plain text that opens no bracket; a bracketed stretch on one line that
    closes none. *)
Definition well_marked_segment (g : segment) : bool :=
  match g with
  | Plain s => no_unit open_bracket s
  | Hit s => no_unit close_bracket s && forallb dot s
  end.

Definition well_marked (segs : list segment) : bool :=
  forallb well_marked_segment segs.

(** ** The start of a string

    The part of [s] before its ([k]+1)-th U+0020; all of it if it has no
    more than [k]. *)
Fixpoint upto_space (k : nat) (s : str) : str :=
  match s with
  | [] => []
  | c :: s' =>
      if unit_eqb c space then
        match k with
        | O => []
        | S k' => c :: upto_space k' s'
        end
      else c :: upto_space k s'
  end.

Definition not_space (c : unit16) : bool := negb (unit_eqb c space).

(** A unit that a file name made of letters, digits and hyphens holds. *)
Definition digit_or_hyphen (c : unit16) : bool :=
  isDigit c || unit_eqb c 45%N.

(** ** Clicking again

    [n] runs of a method, one after the other. *)
Fixpoint runs (n : nat) (c : M unit) (m : Machine) : Machine :=
  match n with
  | O => m
  | S k => runs k c (snd (c m))
  end.

(** A page that already holds an object URL and an anchor of its own. *)
Definition busy : Web.Browser :=
  Web.mkBrowser (fun _ => Web.Response 200 Example.transcript)
    [(lit "blob:other", [1%N; 2%N])] 0
    [Web.mkAnchor (Some (lit "https://elsewhere.example")) None] [].

End Shapes.

(* ================================================================== *)
(** * The Vuetify plugin (plugins/vuetify.js) *)
(* ================================================================== *)

Module Plugin.

Import JS.

(** An object: its own properties in the order they were made. *)
Definition object (V : Type) := list (str * V).

Fixpoint get (V : Type) (k : str) (o : object V) : option V :=
  match o with
  | [] => None
  | (k', v) :: o' => if str_eqb k' k then Some v else get k o'
  end.

(** [o[k] = v]: an own property keeps its place, a new one goes last. *)
Fixpoint set (V : Type) (k : str) (v : V) (o : object V) : object V :=
  match o with
  | [] => [(k, v)]
  | (k', v') :: o' =>
      if str_eqb k' k then (k', v) :: o' else (k', v') :: set k v o'
  end.

(** [{ ...o }]: the properties of [o], copied one by one into a new
    object. *)
Definition spread (V : Type) (o : object V) : object V :=
  fold_left (fun acc kv => set (fst kv) (snd kv) acc) o [].

Definition keys (V : Type) (o : object V) : list str := map fst o.

Section Options.

(** An icon as the icon sets give it, and a set of icons. *)
Variable Icon : Type.
Variable IconSet : Type.
Variable Component : Type.

(** The imports of the module. *)
Variable aliases : object Icon.
Variable mdi : IconSet.
Variable mdiVideo : Icon.
Variable mdiDownload : Icon.
Variable VDateInput : Component.

Record IconOptions := mkIconOptions {
  defaultSet : str;
  icon_aliases : object Icon;
  sets : object IconSet
}.

Record ThemeOptions := mkThemeOptions {
  defaultTheme : str
}.

Record VuetifyOptions := mkVuetifyOptions {
  icons : IconOptions;
  theme : ThemeOptions;
  components : object Component
}.

(** The argument of [createVuetify]. *)
Definition options : VuetifyOptions :=
  mkVuetifyOptions
    (mkIconOptions (lit "mdi")
       (set (lit "mdiDownload") mdiDownload
          (set (lit "mdiVideo") mdiVideo (spread aliases)))
       [(lit "mdi", mdi)])
    (mkThemeOptions (lit "dark"))
    [(lit "VDateInput", VDateInput)].

End Options.

(** Two aliases to try the options on, icons being numbers. *)
Definition sample_aliases : object nat := [(lit "close", 1); (lit "menu", 2)].

(** The icons that the buttons of the card name (prepend-icon). *)
Definition card_icons : list str := [lit "$mdiVideo"; lit "$mdiDownload"].

(** The alias that an icon name with a leading dollar sign stands for. *)
Definition alias_of (icon : str) : str := slice_from 1 icon.

End Plugin.

Unset Implicit Arguments.

(* ================================================================== *)
(** * Strings and patterns: lemmas *)
(* ================================================================== *)

Module StringFacts.

Import JS.

Lemma unit_eqb_eq (a b : unit16) : unit_eqb a b = true <-> a = b.
Proof. apply N.eqb_eq. Qed.

Lemma unit_eqb_refl (a : unit16) : unit_eqb a a = true.
Proof. apply N.eqb_refl. Qed.

Lemma str_eqb_refl (s : str) : str_eqb s s = true.
Proof.
  induction s as [|c s IH]; simpl; [reflexivity|].
  now rewrite unit_eqb_refl, IH.
Qed.

Lemma str_eqb_eq (a b : str) : str_eqb a b = true <-> a = b.
Proof.
  split.
  - revert b.
    induction a as [|x a IH]; intros [|y b] H; simpl in H;
      try discriminate; [reflexivity|].
    apply andb_true_iff in H as [Hx Hab].
    apply unit_eqb_eq in Hx. now rewrite Hx, (IH b Hab).
  - intros ->. apply str_eqb_refl.
Qed.

(** ** One class replaced by nothing is a filter *)

Lemma exec_at_Class (p : unit16 -> bool) (s : str) :
  exec_at (Class p) s =
  match s with
  | [] => None
  | c :: s' => if p c then Some (1, []) else None
  end.
Proof.
  unfold exec_at; destruct s as [|c s']; cbn [rmatch]; [reflexivity|].
  destruct (p c); [|reflexivity].
  cbn [length]. do 2 f_equal. lia.
Qed.

Lemma GetSubstitution_empty (m b a : str) (caps : captures) :
  GetSubstitution m b a caps [] = [].
Proof. reflexivity. Qed.

Lemma replace_Class_empty (p : unit16 -> bool) (s before : str) :
  replace_from (Class p) [] before s 0 = filter (fun c => negb (p c)) s.
Proof.
  revert before.
  induction s as [|c s IH]; intros before.
  - reflexivity.
  - cbn [replace_from]. rewrite exec_at_Class. cbn [filter].
    destruct (p c); cbn [negb].
    + rewrite GetSubstitution_empty. apply IH.
    + f_equal. apply IH.
Qed.

(** ** The units of a match are passed over *)

Lemma replace_from_skip (r : regex) (t x rest before : str) :
  replace_from r t before (x ++ rest) (length x) =
  replace_from r t (rev x ++ before) rest 0.
Proof.
  revert before.
  induction x as [|c x IH]; intros before; [reflexivity|].
  cbn [app length replace_from rev].
  rewrite IH, <- app_assoc. reflexivity.
Qed.

Lemma replace_from_cons (r : regex) (t before s' : str) (c : unit16) :
  replace_from r t before (c :: s') 0 =
  match exec_at r (c :: s') with
  | Some (len, caps) =>
      let rep :=
        GetSubstitution (firstn len (c :: s')) (rev before)
          (skipn len (c :: s')) caps t in
      match len with
      | O => rep ++ c :: replace_from r t (c :: before) s' 0
      | S n => rep ++ replace_from r t (c :: before) s' n
      end
  | None => c :: replace_from r t (c :: before) s' 0
  end.
Proof. reflexivity. Qed.

(** ** The string methods on small inputs *)

Example split_empty : split 32%N [] = [[]].
Proof. reflexivity. Qed.

Example split_two_spaces :
  split 32%N (lit "a  b c") = [lit "a"; []; lit "b"; lit "c"].
Proof. reflexivity. Qed.

Example trim_both_ends :
  trim ([9%N; 32%N] ++ lit "a b" ++ [160%N; 10%N]) = lit "a b".
Proof. reflexivity. Qed.

Example padStart_short : padStart 2 (lit "0") (lit "5") = lit "05".
Proof. reflexivity. Qed.

Example padStart_long : padStart 2 (lit "0") (lit "NaN") = lit "NaN".
Proof. reflexivity. Qed.

Example toString_negative : toString (Int (-271821)) = lit "-271821".
Proof. reflexivity. Qed.

(** [/(a*?)b/g] with the template [<$1|$&|$$|$2>]: the lazy star gives way
    to what follows it, and a reference to a group that is not there is
    copied. *)
Example replace_lazy_group :
  replace_global
    (Seq (Group (LazyStar (fun c => unit_eqb c 97%N)))
         (Class (fun c => unit_eqb c 98%N)))
    (lit "<$1|$&|$$|$2>") (lit "xaab-b")
  = lit "x<aa|aab|$|$2>-<|b|$|$2>".
Proof. reflexivity. Qed.

(** [/(a*?)/g]: an empty match at every position, the end included. *)
Example replace_empty_matches :
  replace_global (Group (LazyStar (fun c => unit_eqb c 97%N))) (lit "-")
    (lit "ab")
  = lit "-a-b-".
Proof. reflexivity. Qed.

End StringFacts.

(* ================================================================== *)
(** * The highlight: lemmas *)
(* ================================================================== *)

Module HighlightFacts.

Import JS ResultCard Described StringFacts.

Lemma until_close_app (s x rest : str) :
  until_close s = Some (x, rest) -> s = x ++ close_bracket :: rest.
Proof.
  revert x rest.
  induction s as [|c s IH]; intros x rest H; simpl in H; [discriminate|].
  destruct (unit_eqb c close_bracket) eqn:E.
  - apply unit_eqb_eq in E. inversion H; subst. reflexivity.
  - destruct (until_close s) as [[x' rest']|]; [|discriminate].
    inversion H; subst. simpl. f_equal. now apply IH.
Qed.

Lemma until_close_found (x rest : str) :
  forallb (fun c => negb (unit_eqb c close_bracket)) x = true ->
  until_close (x ++ close_bracket :: rest) = Some (x, rest).
Proof.
  induction x as [|c x IH]; intros H; simpl.
  - reflexivity.
  - simpl in H. apply andb_true_iff in H as [Hc Hx].
    apply negb_true_iff in Hc. rewrite Hc, (IH Hx). reflexivity.
Qed.

Lemma until_close_none (s : str) :
  forallb (fun c => negb (unit_eqb c close_bracket)) s = true ->
  until_close s = None.
Proof.
  induction s as [|c s IH]; intros H; simpl; [reflexivity|].
  simpl in H. apply andb_true_iff in H as [Hc Hs].
  apply negb_true_iff in Hc. now rewrite Hc, (IH Hs).
Qed.

(** The lazy star of the pattern, from inside a subject [pre ++ s] of which
    [pre] has been taken: it stops at the first closing bracket and fails
    on a line terminator before it. *)
Lemma lazy_star_dot_scan (s pre : str) (caps : captures) :
  lazy_star dot s caps
    (fun s1 caps1 =>
       rmatch (Class (is_unit close_bracket)) s1
         (caps1 ++ [firstn (length (pre ++ s) - length s1) (pre ++ s)])
         (fun s2 caps2 => Some (s2, caps2)))
  = match until_close s with
    | Some (x, rest) =>
        if forallb dot x then Some (rest, caps ++ [pre ++ x]) else None
    | None => None
    end.
Proof.
  revert pre.
  induction s as [|c s IH]; intros pre; [reflexivity|].
  cbn [lazy_star rmatch until_close]. unfold is_unit at 1.
  destruct (unit_eqb c close_bracket) eqn:E.
  - cbn [forallb]. do 3 f_equal.
    rewrite length_app.
    replace (length pre + length (c :: s) - length (c :: s))
      with (length pre) by lia.
    rewrite firstn_app, Nat.sub_diag, firstn_all, app_nil_r. now rewrite app_nil_r.
  - destruct (dot c) eqn:D.
    + specialize (IH (pre ++ [c])).
      rewrite <- app_assoc in IH. cbn [app rmatch] in IH. rewrite IH.
      destruct (until_close s) as [[x rest]|]; [|reflexivity].
      cbn [forallb]. rewrite D. cbn [andb].
      rewrite <- app_assoc. reflexivity.
    + destruct (until_close s) as [[x rest]|]; [|reflexivity].
      cbn [forallb]. rewrite D. reflexivity.
Qed.

(** Where the pattern matches, and what it captures. *)
Lemma exec_at_bracket (c : unit16) (s : str) :
  exec_at bracket_pattern (c :: s) =
  if unit_eqb c open_bracket then
    match until_close s with
    | Some (x, rest) =>
        if forallb dot x then Some (S (S (length x)), [x]) else None
    | None => None
    end
  else None.
Proof.
  unfold exec_at, bracket_pattern. cbn [rmatch]. unfold is_unit at 1.
  destruct (unit_eqb c open_bracket); [|reflexivity].
  pose proof (lazy_star_dot_scan s [] []) as L. cbn [app rmatch] in L.
  rewrite L; clear L.
  destruct (until_close s) as [[x rest]|] eqn:U; [|reflexivity].
  destruct (forallb dot x); [|reflexivity].
  apply until_close_app in U. subst s.
  cbn [length]. rewrite length_app. cbn [length].
  do 2 f_equal. lia.
Qed.

Lemma exec_at_bracket_nil : exec_at bracket_pattern [] = None.
Proof. reflexivity. Qed.

(** The replacement text of a match with capture [x]. *)
Lemma span_substitution (matched before after x : str) :
  GetSubstitution matched before after [x] span_template =
  span_open ++ x ++ span_close.
Proof. reflexivity. Qed.

Lemma highlight_from_cons (before s : str) (c : unit16) :
  highlight_from before (c :: s) =
  if unit_eqb c open_bracket then
    match until_close s with
    | Some (x, rest) =>
        if forallb dot x then
          span_open ++ x ++ span_close ++
          highlight_from (rev (x ++ [close_bracket]) ++ c :: before) rest
        else c :: highlight_from (c :: before) s
    | None => c :: highlight_from (c :: before) s
    end
  else c :: highlight_from (c :: before) s.
Proof.
  unfold highlight_from. rewrite replace_from_cons, exec_at_bracket.
  destruct (unit_eqb c open_bracket); [|reflexivity].
  destruct (until_close s) as [[x rest]|] eqn:U; [|reflexivity].
  destruct (forallb dot x); [|reflexivity].
  apply until_close_app in U. subst s.
  cbv zeta. rewrite span_substitution.
  replace (x ++ close_bracket :: rest) with ((x ++ [close_bracket]) ++ rest)
    by (rewrite <- app_assoc; reflexivity).
  replace (S (length x)) with (length (x ++ [close_bracket]))
    by (rewrite length_app; cbn [length]; lia).
  rewrite replace_from_skip, <- !app_assoc. reflexivity.
Qed.

Lemma highlight_from_any (n : nat) :
  forall s before, length s <= n -> highlight_from before s = highlight s.
Proof.
  induction n as [|n IH]; intros s before Hn.
  - destruct s; [reflexivity | cbn [length] in Hn; lia].
  - destruct s as [|c s]; [reflexivity|].
    cbn [length] in Hn.
    change (highlight (c :: s)) with (highlight_from [] (c :: s)).
    rewrite !highlight_from_cons.
    assert (Hs : forall b, highlight_from b s = highlight s)
      by (intros b; apply IH; lia).
    destruct (unit_eqb c open_bracket); [|now rewrite !Hs].
    destruct (until_close s) as [[x rest]|] eqn:U; [|now rewrite !Hs].
    destruct (forallb dot x); [|now rewrite !Hs].
    apply until_close_app in U.
    assert (Hr : length rest <= n).
    { subst s. rewrite length_app in Hn. cbn [length] in Hn. lia. }
    now rewrite !(IH rest _ Hr).
Qed.

(** The transform, unit by unit. *)
Lemma highlight_nil : highlight [] = [].
Proof. reflexivity. Qed.

Lemma highlight_cons (c : unit16) (s : str) :
  highlight (c :: s) =
  if unit_eqb c open_bracket then
    match until_close s with
    | Some (x, rest) =>
        if forallb dot x then span_open ++ x ++ span_close ++ highlight rest
        else c :: highlight s
    | None => c :: highlight s
    end
  else c :: highlight s.
Proof.
  change (highlight (c :: s)) with (highlight_from [] (c :: s)).
  rewrite highlight_from_cons.
  destruct (unit_eqb c open_bracket);
    [|now rewrite (highlight_from_any (length s) s _ (le_n _))].
  destruct (until_close s) as [[x rest]|];
    [|now rewrite (highlight_from_any (length s) s _ (le_n _))].
  destruct (forallb dot x);
    [|now rewrite (highlight_from_any (length s) s _ (le_n _))].
  now rewrite (highlight_from_any (length rest) rest _ (le_n _)).
Qed.

Lemma highlight_no_open (s : str) :
  forallb (fun c => negb (unit_eqb c open_bracket)) s = true ->
  highlight s = s.
Proof.
  induction s as [|c s IH]; intros H; [reflexivity|].
  cbn [forallb] in H. apply andb_true_iff in H as [Hc Hs].
  apply negb_true_iff in Hc.
  rewrite highlight_cons, Hc, (IH Hs). reflexivity.
Qed.

Lemma highlight_no_close (s : str) :
  forallb (fun c => negb (unit_eqb c close_bracket)) s = true ->
  highlight s = s.
Proof.
  induction s as [|c s IH]; intros H; [reflexivity|].
  cbn [forallb] in H. apply andb_true_iff in H as [Hc Hs].
  rewrite highlight_cons, (until_close_none s Hs), (IH Hs).
  now destruct (unit_eqb c open_bracket).
Qed.

End HighlightFacts.

(* ================================================================== *)
(** * Dates: lemmas *)
(* ================================================================== *)

Module DateFacts.

Import JS JSDate Described.
Local Open Scope Z_scope.

Ltac euclid := Z.to_euclidean_division_equations; lia.

Lemma Day_bounds (t : Z) : Day t * msPerDay <= t < (Day t + 1) * msPerDay.
Proof. unfold Day, msPerDay. euclid. Qed.

Lemma Day_of_midnight (d : Z) : Day (d * msPerDay) = d.
Proof. unfold Day, msPerDay. euclid. Qed.

Lemma TimeFromYear_leb (y t : Z) :
  (TimeFromYear y <=? t) = (DayFromYear y <=? Day t).
Proof.
  unfold TimeFromYear.
  pose proof (Day_bounds t) as B. unfold msPerDay in *.
  destruct (Z.leb_spec (86400000 * DayFromYear y) t);
    destruct (Z.leb_spec (DayFromYear y) (Day t)); try reflexivity; lia.
Qed.

Lemma DaysInYear_cases (y : Z) : DaysInYear y = 365 \/ DaysInYear y = 366.
Proof.
  unfold DaysInYear.
  destruct (y mod 4 =? 0), (y mod 100 =? 0), (y mod 400 =? 0); cbn; auto.
Qed.

Lemma DayFromYear_succ (y : Z) :
  DayFromYear (y + 1) = DayFromYear y + DaysInYear y.
Proof.
  unfold DayFromYear, DaysInYear.
  destruct (Z.eqb_spec (y mod 4) 0), (Z.eqb_spec (y mod 100) 0),
    (Z.eqb_spec (y mod 400) 0); cbn [negb]; euclid.
Qed.

(** The year the mean year length gives is at most one off. *)
Lemma year_estimate (d : Z) :
  let y := 1970 + (d * 400) / 146097 in
  DayFromYear (y - 1) <= d < DayFromYear (y + 2).
Proof. unfold DayFromYear. cbv zeta. euclid. Qed.

(** [YearFromTime t] is the year whose days contain [Day t]. *)
Lemma YearFromTime_spec (t : Z) :
  DayFromYear (YearFromTime t) <= Day t < DayFromYear (YearFromTime t + 1).
Proof.
  unfold YearFromTime. cbv zeta.
  pose proof (year_estimate (Day t)) as E. cbv zeta in E.
  set (y := 1970 + Day t * 400 / 146097) in *.
  rewrite !TimeFromYear_leb.
  replace (y + 2) with (y + 1 + 1) in E by lia.
  replace (y - 1 + 1) with y by lia.
  destruct (Z.leb_spec (DayFromYear (y + 1)) (Day t)); [lia|].
  destruct (Z.leb_spec (DayFromYear y) (Day t)); [lia|].
  replace (y - 1 + 1) with y by lia. lia.
Qed.

Lemma DayFromYear_mono (a b : Z) : a <= b -> DayFromYear a <= DayFromYear b.
Proof. unfold DayFromYear. intros H. euclid. Qed.

(** It is the only such year: the largest with [TimeFromYear y <= t]. *)
Lemma YearFromTime_unique (t y : Z) :
  DayFromYear y <= Day t < DayFromYear (y + 1) -> YearFromTime t = y.
Proof.
  intros H. pose proof (YearFromTime_spec t) as S.
  destruct (Z.lt_trichotomy (YearFromTime t) y) as [L|[E|G]]; [|exact E|].
  - pose proof (DayFromYear_mono (YearFromTime t + 1) y). lia.
  - pose proof (DayFromYear_mono (y + 1) (YearFromTime t)). lia.
Qed.

Lemma DayWithinYear_range (t : Z) :
  0 <= DayWithinYear t < DaysInYear (YearFromTime t).
Proof.
  unfold DayWithinYear. pose proof (YearFromTime_spec t) as S.
  rewrite DayFromYear_succ in S. lia.
Qed.

Lemma InLeapYear_days (t : Z) :
  DaysInYear (YearFromTime t) = 365 + InLeapYear t.
Proof.
  unfold InLeapYear.
  destruct (DaysInYear_cases (YearFromTime t)) as [H|H]; rewrite H; reflexivity.
Qed.

(** The getters give the calendar date of the day: the month (0-11) and the
    day of the month are in range and [MakeDay] takes them back to the day
    number. *)
Lemma getters_spec (t : Z) :
  let y := YearFromTime t in
  let m := MonthFromTime t in
  let dt := DateFromTime t in
  0 <= m <= 11 /\ 1 <= dt <= DaysInMonth y m /\ MakeDay y m dt = Day t.
Proof.
  cbv zeta.
  pose proof (DayWithinYear_range t) as R. rewrite InLeapYear_days in R.
  assert (L : InLeapYear t = 0 \/ InLeapYear t = 1)
    by (unfold InLeapYear; destruct (_ =? _); auto).
  assert (LS : (if DaysInYear (YearFromTime t) =? 366 then 1 else 0)
               = InLeapYear t) by reflexivity.
  assert (D : Day t = DayFromYear (YearFromTime t) + DayWithinYear t)
    by (unfold DayWithinYear; lia).
  unfold DateFromTime, MonthFromTime. cbv zeta.
  set (d := DayWithinYear t) in *. set (leap := InLeapYear t) in *.
  set (y := YearFromTime t) in *.
  clearbody d leap y.
  repeat match goal with
         | |- context [?a <? ?b] => destruct (Z.ltb_spec a b)
         end.
  all: unfold MakeDay, DaysInMonth, monthStart.
  all: repeat match goal with
              | |- context [?a mod 12] =>
                  let v := eval vm_compute in (a mod 12) in
                  change (a mod 12) with v
              | |- context [?a / 12] =>
                  let v := eval vm_compute in (a / 12) in
                  change (a / 12) with v
              end.
  all: cbn -[Z.add Z.sub Z.mul]; rewrite ?Z.add_0_r, ?LS; lia.
Qed.

Lemma civil_of_time_spec (t : Z) :
  let c := civil_of_time t in
  1 <= month c <= 12 /\
  1 <= day c <= DaysInMonth (year c) (month c - 1) /\
  MakeDay (year c) (month c - 1) (day c) = Day t.
Proof.
  unfold civil_of_time. cbn [year month day].
  rewrite Z.add_simpl_r. pose proof (getters_spec t) as G. cbv zeta in G. lia.
Qed.

(** They depend on the day only. *)
Lemma civil_of_time_same_day (t t' : Z) :
  Day t = Day t' -> civil_of_time t = civil_of_time t'.
Proof.
  intros E.
  assert (Y : YearFromTime t = YearFromTime t').
  { apply YearFromTime_unique. rewrite E. apply YearFromTime_spec. }
  assert (W : DayWithinYear t = DayWithinYear t')
    by (unfold DayWithinYear; now rewrite E, Y).
  assert (L : InLeapYear t = InLeapYear t')
    by (unfold InLeapYear; now rewrite Y).
  assert (M : MonthFromTime t = MonthFromTime t')
    by (unfold MonthFromTime; now rewrite W, L).
  unfold civil_of_time, DateFromTime. now rewrite Y, M, W, L.
Qed.

(** [MakeDay] and the getters undo each other: the day that [MakeDay]
    gives for a date has that date. *)
Lemma civil_of_MakeDay (y m d time : Z) :
  0 <= m <= 11 ->
  1 <= d <= DaysInMonth y m ->
  0 <= time < msPerDay ->
  civil_of_time (MakeDate (MakeDay y m d) time) = mkCivil y (m + 1) d.
Proof.
  intros Hm Hd Ht.
  assert (Dy : Day (MakeDate (MakeDay y m d) time) = MakeDay y m d)
    by (unfold Day, MakeDate, msPerDay in *; euclid).
  rewrite (civil_of_time_same_day _ (MakeDay y m d * msPerDay))
    by now rewrite Day_of_midnight.
  set (t := MakeDay y m d * msPerDay).
  assert (Dt : Day t = MakeDay y m d) by apply Day_of_midnight.
  assert (L : (if DaysInYear y =? 366 then 1 else 0) = DaysInYear y - 365)
    by (destruct (DaysInYear_cases y) as [E|E]; rewrite E; reflexivity).
  assert (E : MakeDay y m d = monthStart y m + d - 1).
  { unfold MakeDay. rewrite Z.div_small, Z.mod_small, Z.add_0_r by lia.
    reflexivity. }
  assert (B : 0 <= MakeDay y m d - DayFromYear y < DaysInYear y).
  { rewrite E. unfold monthStart, DaysInMonth in *. rewrite L in *.
    destruct (DaysInYear_cases y) as [C|C]; rewrite C in *;
      assert (M : m = 0 \/ m = 1 \/ m = 2 \/ m = 3 \/ m = 4 \/ m = 5 \/
                  m = 6 \/ m = 7 \/ m = 8 \/ m = 9 \/ m = 10 \/ m = 11)
        by lia;
      repeat (destruct M as [->|M]; [cbn in *; lia|]); subst; cbn in *; lia. }
  assert (Y : YearFromTime t = y).
  { apply YearFromTime_unique. rewrite DayFromYear_succ, Dt. lia. }
  assert (W : DayWithinYear t = MakeDay y m d - DayFromYear y)
    by (unfold DayWithinYear; now rewrite Y, Dt).
  assert (I : InLeapYear t = DaysInYear y - 365)
    by (unfold InLeapYear; now rewrite Y, L).
  unfold civil_of_time, DateFromTime, MonthFromTime. cbv zeta.
  rewrite Y, W, I, E. clear Dy Dt Y W I E B t Ht.
  unfold monthStart, DaysInMonth in *. rewrite L in *.
  destruct (DaysInYear_cases y) as [C|C]; rewrite C in *;
    assert (M : m = 0 \/ m = 1 \/ m = 2 \/ m = 3 \/ m = 4 \/ m = 5 \/
                m = 6 \/ m = 7 \/ m = 8 \/ m = 9 \/ m = 10 \/ m = 11)
      by lia;
    repeat (destruct M as [->|M];
            [cbn -[Z.add Z.sub Z.ltb DayFromYear] in *;
             repeat match goal with
                    | |- context [?a <? ?b] => destruct (Z.ltb_spec a b)
                    end; try lia; f_equal; lia|]);
    subst;
    cbn -[Z.add Z.sub Z.ltb DayFromYear] in *;
    repeat match goal with
           | |- context [?a <? ?b] => destruct (Z.ltb_spec a b)
           end; try lia; f_equal; lia.
Qed.

(** ** The getters and the calendar counted on its own *)

Lemma DaysInYear_is_leap (y : Z) :
  DaysInYear y = if is_leap y then 366 else 365.
Proof.
  unfold DaysInYear, is_leap.
  destruct (Z.eqb_spec (y mod 4) 0), (Z.eqb_spec (y mod 100) 0),
    (Z.eqb_spec (y mod 400) 0); cbn [negb andb orb]; try reflexivity;
    exfalso; euclid.
Qed.

Lemma DayFromYear_leap_years (y : Z) :
  DayFromYear y =
  365 * (y - 1970) + (leap_years_before y - leap_years_before 1970).
Proof.
  unfold DayFromYear, leap_years_before.
  change ((1970 - 1) / 4 - (1970 - 1) / 100 + (1970 - 1) / 400) with 477.
  euclid.
Qed.

Lemma month_cases (m : Z) :
  1 <= m <= 12 ->
  m = 1 \/ m = 2 \/ m = 3 \/ m = 4 \/ m = 5 \/ m = 6 \/ m = 7 \/ m = 8 \/
  m = 9 \/ m = 10 \/ m = 11 \/ m = 12.
Proof. lia. Qed.

Lemma DaysInMonth_month_length (y m : Z) :
  1 <= m <= 12 -> DaysInMonth y (m - 1) = month_length y m.
Proof.
  intros H. unfold DaysInMonth, month_length. cbv zeta.
  rewrite DaysInYear_is_leap.
  destruct (month_cases m H) as [E|[E|[E|[E|[E|[E|[E|[E|[E|[E|[E|E]]]]]]]]]]];
    subst m; destruct (is_leap y); reflexivity.
Qed.

Lemma MakeDay_days_from_civil (y m d : Z) :
  1 <= m <= 12 -> MakeDay y (m - 1) d = days_from_civil y m d.
Proof.
  intros H. unfold MakeDay, days_from_civil.
  rewrite Z.div_small, Z.mod_small, Z.add_0_r by lia.
  unfold monthStart. rewrite DayFromYear_leap_years, DaysInYear_is_leap.
  assert (B : match m - 1 with
              | 0 => 0
              | 1 => 31
              | 2 => 59 + (if (if is_leap y then 366 else 365) =? 366
                           then 1 else 0)
              | 3 => 90 + (if (if is_leap y then 366 else 365) =? 366
                           then 1 else 0)
              | 4 => 120 + (if (if is_leap y then 366 else 365) =? 366
                            then 1 else 0)
              | 5 => 151 + (if (if is_leap y then 366 else 365) =? 366
                            then 1 else 0)
              | 6 => 181 + (if (if is_leap y then 366 else 365) =? 366
                            then 1 else 0)
              | 7 => 212 + (if (if is_leap y then 366 else 365) =? 366
                            then 1 else 0)
              | 8 => 243 + (if (if is_leap y then 366 else 365) =? 366
                            then 1 else 0)
              | 9 => 273 + (if (if is_leap y then 366 else 365) =? 366
                            then 1 else 0)
              | 10 => 304 + (if (if is_leap y then 366 else 365) =? 366
                             then 1 else 0)
              | _ => 334 + (if (if is_leap y then 366 else 365) =? 366
                            then 1 else 0)
              end = days_before_month y m).
  { unfold days_before_month, month_length.
    destruct (month_cases m H)
      as [E|[E|[E|[E|[E|[E|[E|[E|[E|[E|[E|E]]]]]]]]]]];
      subst m; destruct (is_leap y); reflexivity. }
  cbv zeta. rewrite B. lia.
Qed.

(** A day has one date only. *)
Lemma days_from_civil_inj (y m d y' m' d' : Z) :
  1 <= m <= 12 -> 1 <= d <= month_length y m ->
  1 <= m' <= 12 -> 1 <= d' <= month_length y' m' ->
  days_from_civil y m d = days_from_civil y' m' d' ->
  y' = y /\ m' = m /\ d' = d.
Proof.
  intros Hm Hd Hm' Hd' E.
  rewrite <- !MakeDay_days_from_civil in E by assumption.
  rewrite <- DaysInMonth_month_length in Hd, Hd' by assumption.
  assert (T : 0 <= 0 < msPerDay) by (unfold msPerDay; lia).
  pose proof (civil_of_MakeDay y (m - 1) d 0 ltac:(lia) Hd T) as C.
  pose proof (civil_of_MakeDay y' (m' - 1) d' 0 ltac:(lia) Hd' T) as C'.
  rewrite E in C. rewrite C in C'. injection C' as Ey Em Ed. lia.
Qed.

(** ** Decimal digits *)

Lemma digits_fuel_value (fuel : nat) :
  forall z acc,
    0 <= z < 2 ^ Z.of_nat fuel ->
    fold_left (fun a c => 10 * a + (Z.of_N c - 48)) (digits_fuel fuel z acc) 0
    = fold_left (fun a c => 10 * a + (Z.of_N c - 48)) acc z.
Proof.
  induction fuel as [|f IH]; intros z acc H.
  - cbn in H. assert (z = 0) by lia. subst. reflexivity.
  - cbn [digits_fuel].
    destruct (Z.ltb_spec z 10) as [L|G].
    + cbn [fold_left]. unfold digit. rewrite Z2N.id by lia.
      f_equal. lia.
    + rewrite IH.
      * cbn [fold_left]. unfold digit.
        rewrite Z2N.id by (pose proof (Z.mod_pos_bound z 10); lia).
        f_equal. euclid.
      * rewrite Nat2Z.inj_succ, Z.pow_succ_r in H by lia. euclid.
Qed.

(** [digits] writes its argument. *)
Lemma digits_value (z : Z) : 0 <= z -> decimal_value (digits z) = z.
Proof.
  intros H. unfold decimal_value, digits.
  rewrite digits_fuel_value; [reflexivity|].
  split; [exact H|].
  destruct (Z.eq_dec z 0) as [->|N]; [reflexivity|].
  rewrite Nat2Z.inj_succ, Z2Nat.id by apply Z.log2_nonneg.
  apply Z.log2_spec. lia.
Qed.

(** A number below 100, padded to two places. *)
Lemma padStart_two_digits (n : Z) :
  0 <= n < 100 -> padStart 2 (lit "0") (toString (Int n)) = two_digits n.
Proof.
  intros H.
  assert (E : exists k, (k < 100)%nat /\ n = Z.of_nat k)
    by (exists (Z.to_nat n); lia).
  destruct E as (k & Hk & ->). clear H.
  do 100 (destruct k as [|k]; [vm_compute; reflexivity|]).
  lia.
Qed.

(** A year of four digits is written with four digits. *)
Lemma digits_four (y : Z) : 1000 <= y <= 9999 -> length (digits y) = 4%nat.
Proof.
  intros H. unfold digits.
  assert (L : 9 <= Z.log2 y) by (apply (Z.log2_le_mono 1000 y); lia).
  destruct (Z.to_nat (Z.log2 y)) as [|[|[|f]]] eqn:E; try lia.
  cbn [digits_fuel].
  destruct (Z.ltb_spec y 10); [lia|].
  destruct (Z.ltb_spec (y / 10) 10); [euclid|].
  destruct (Z.ltb_spec (y / 10 / 10) 10); [euclid|].
  destruct (Z.ltb_spec (y / 10 / 10 / 10) 10); [reflexivity|euclid].
Qed.

Section Host.

Variable LocalTZA : Z -> Z.
Variable hostDateParse : str -> option Z.

(** The date of the file name, when the datetime parses. *)
Lemma date_str_of_valid (dt : str) (t : Z) :
  parse hostDateParse dt = Some t ->
  ResultCard.date_str_of LocalTZA hostDateParse dt =
  written (civil_of_time (LocalTime LocalTZA t)).
Proof.
  intros P. unfold ResultCard.date_str_of, newDate.
  cbv zeta. unfold getDate, getMonth, getFullYear, getter.
  cbn [DateValue]. rewrite P. cbn [num_add].
  pose proof (getters_spec (LocalTime LocalTZA t)) as G. cbv zeta in G.
  destruct G as (M & D & _).
  assert (D31 : DaysInMonth (YearFromTime (LocalTime LocalTZA t))
                  (MonthFromTime (LocalTime LocalTZA t)) <= 31).
  { unfold DaysInMonth. cbv zeta.
    destruct (DaysInYear _ =? 366);
      destruct (MonthFromTime _) as [|[[[|[]|]|[[]|[]|]|]|[[|[]|]|[[]|[]|]|]|]|];
      lia. }
  rewrite !padStart_two_digits by lia.
  reflexivity.
Qed.

(** The date of the file name, when it does not. *)
Lemma date_str_of_invalid (dt : str) :
  parse hostDateParse dt = None ->
  ResultCard.date_str_of LocalTZA hostDateParse dt = lit "NaN-NaN-NaN".
Proof.
  intros P. unfold ResultCard.date_str_of, newDate.
  cbv zeta. unfold getDate, getMonth, getFullYear, getter.
  cbn [DateValue]. rewrite P. reflexivity.
Qed.

End Host.

End DateFacts.

(* ================================================================== *)
(** * The short title: lemmas *)
(* ================================================================== *)

Module TitleFacts.

Import JS ResultCard Described StringFacts.

(** The first [replace] of the title keeps the letters a-z and A-Z, the
    digits and the whitespace. *)
Lemma sanitize_strip (t : str) : replace_global other_pattern [] t = strip t.
Proof.
  unfold replace_global, other_pattern, strip.
  rewrite replace_Class_empty.
  apply filter_ext. intros c. unfold kept. now rewrite negb_involutive.
Qed.

Lemma trimStart_head (s : str) :
  trimStart s = [] \/
  exists c s', trimStart s = c :: s' /\ isSpace c = false.
Proof.
  induction s as [|c s IH]; [now left|].
  cbn [trimStart]. destruct (isSpace c) eqn:E; [exact IH|].
  right. now exists c, s.
Qed.

Lemma trimStart_spaces (s : str) : forallb isSpace s = true -> trimStart s = [].
Proof.
  induction s as [|c s IH]; intros H; [reflexivity|].
  cbn [forallb] in H. apply andb_true_iff in H as [Hc Hs].
  cbn [trimStart]. rewrite Hc. now apply IH.
Qed.

(** A trimmed string is empty or ends in a unit that is not whitespace. *)
Lemma trimEnd_last (s : str) :
  trimEnd s = [] \/
  exists s' c, trimEnd s = s' ++ [c] /\ isSpace c = false.
Proof.
  unfold trimEnd.
  destruct (trimStart_head (rev s)) as [E|(c & s' & E & Hc)]; rewrite E.
  - now left.
  - right. exists (rev s'), c. now split.
Qed.

Lemma tokens_nil (s : str) : tokens s = [] -> forallb isSpace s = true.
Proof.
  induction s as [|c s IH]; intros H; [reflexivity|].
  cbn [tokens] in H. cbn [forallb].
  destruct (isSpace c) eqn:E; [now rewrite (IH H)|].
  destruct s as [|d s']; [discriminate|].
  destruct (isSpace d); [discriminate|].
  destruct (tokens (d :: s')); discriminate.
Qed.

Lemma tokens_spaces (s : str) : forallb isSpace s = true -> tokens s = [].
Proof.
  induction s as [|c s IH]; intros H; [reflexivity|].
  cbn [forallb] in H. apply andb_true_iff in H as [Hc Hs].
  cbn [tokens]. rewrite Hc. now apply IH.
Qed.

(** A title has no tokens exactly when nothing is left of it. *)
Lemma title_tokens_nil (t : str) :
  title_tokens t = [] <-> trim (strip t) = [].
Proof.
  unfold title_tokens. split; [|now intros ->].
  intros H. apply tokens_nil in H.
  unfold trim in *.
  destruct (trimEnd_last (trimStart (strip t))) as [E|(s' & c & E & Hc)];
    [exact E|].
  rewrite E, forallb_app in H. cbn [forallb] in H.
  rewrite Hc in H. rewrite andb_false_r in H. discriminate.
Qed.

Lemma title_of_no_tokens (t : str) : title_tokens t = [] -> title_of t = [].
Proof.
  intros H. apply title_tokens_nil in H.
  unfold title_of. rewrite sanitize_strip, H. reflexivity.
Qed.

Lemma split_cons (c : unit16) (s : str) :
  exists p ps, split c s = p :: ps.
Proof.
  destruct s as [|d s]; cbn [split]; [now exists [], []|].
  destruct (unit_eqb d c); [now eexists _, _|].
  destruct (split c s); now eexists _, _.
Qed.

Lemma space_isSpace (c : unit16) : isSpace c = false -> unit_eqb c space = false.
Proof.
  intros H. destruct (unit_eqb c space) eqn:E; [|reflexivity].
  apply unit_eqb_eq in E. subst c. discriminate.
Qed.

(** Where the first [k] pieces between single spaces read as tokens, they
    are the first [k] tokens. *)
Lemma split_token_like (n : nat) :
  forall s k,
    length s <= n ->
    forallb token_like (firstn k (split space s)) = true ->
    firstn k (split space s) = firstn k (tokens s).
Proof.
  induction n as [|n IH]; intros s k Hn H.
  - destruct s; [|cbn [length] in Hn; lia].
    destruct k; [reflexivity | discriminate].
  - destruct k as [|k]; [reflexivity|].
    destruct s as [|c s']; [discriminate|].
    cbn [length] in Hn. cbn [split] in H |- *.
    destruct (unit_eqb c space) eqn:Ec; [discriminate|].
    destruct (split_cons space s') as (p & ps & Es). rewrite Es in H |- *.
    cbn [firstn forallb token_like] in H.
    apply andb_true_iff in H as [H Hps].
    apply andb_true_iff in H as [Hc Hp]. apply negb_true_iff in Hc.
    cbn [tokens firstn]. rewrite Hc.
    destruct s' as [|d s''].
    + cbn [split] in Es. inversion Es; subst. now destruct k.
    + cbn [split] in Es. destruct (isSpace d) eqn:Hd.
      * destruct (unit_eqb d space) eqn:Ed.
        -- inversion Es; subst. f_equal.
           cbn [tokens]. rewrite Hd.
           apply IH; [cbn [length] in Hn; lia | exact Hps].
        -- destruct (split space s''); inversion Es; subst;
             cbn [forallb] in Hp; rewrite Hd in Hp; discriminate.
      * assert (Ed : unit_eqb d space = false) by now apply space_isSpace.
        rewrite Ed in Es.
        assert (T : firstn (S k) (split space (d :: s''))
                    = firstn (S k) (tokens (d :: s''))).
        { apply IH; [lia|]. cbn [split]. rewrite Ed.
          destruct (split space s''); inversion Es; subst;
            cbn [firstn forallb token_like]; cbn [forallb] in Hp;
            now rewrite Hp, Hps. }
        cbn [split] in T. rewrite Ed in T.
        destruct (split space s'') as [|q qs]; inversion Es; subst;
          destruct (tokens (d :: s'')) as [|w ws]; cbn [firstn] in T;
          try discriminate; inversion T; subst; reflexivity.
Qed.

(** Where the first three pieces of the title read as tokens, the short
    title is the described one. *)
Lemma title_of_token_like (t : str) :
  forallb token_like (firstn 3 (split space (trim (strip t)))) = true \/
  trim (strip t) = [] ->
  title_of t = short_title t.
Proof.
  unfold title_of, short_title, title_tokens, join_empty, array_slice0.
  rewrite sanitize_strip.
  intros [W|E].
  - now rewrite (split_token_like (length (trim (strip t))) _ 3 (le_n _) W).
  - rewrite E. reflexivity.
Qed.

End TitleFacts.

(* ================================================================== *)
(** * Runs of downloadTranscript: lemmas *)
(* ================================================================== *)

Module RunFacts.

Import JS JSDate ResultCard Described StringFacts.

Lemma skipn_emitted (A : Type) (l new : list A) :
  skipn (length l) (l ++ new) = new.
Proof. induction l as [|x l IH]; [reflexivity | exact IH]. Qed.

(** One statement of a method at a time. *)
Lemma bind_read (A B : Type) (f : SearchResult -> A) (k : A -> M B)
    (m : Machine) :
  bind (read f) k m = k (f (result (this m))) m.
Proof. reflexivity. Qed.

Lemma bind_exec (B : Type) (f : Web.Browser -> Web.Browser) (k : unit -> M B)
    (m : Machine) :
  bind (exec f) k m = k tt (mkMachine (this m) (f (browser m))).
Proof. reflexivity. Qed.

Lemma bind_call (A B : Type) (f : Web.Browser -> A * Web.Browser)
    (k : A -> M B) (m : Machine) :
  bind (call f) k m =
  k (fst (f (browser m))) (mkMachine (this m) (snd (f (browser m)))).
Proof. unfold bind, call. now destruct (f (browser m)). Qed.

Lemma bind_await (A B : Type)
    (f : Web.Browser -> (A + Web.Error) * Web.Browser) (k : A -> M B)
    (m : Machine) :
  bind (await f) k m =
  match fst (f (browser m)) with
  | inl a => k a (mkMachine (this m) (snd (f (browser m))))
  | inr e => (Throw e, mkMachine (this m) (snd (f (browser m))))
  end.
Proof. unfold bind, await. now destruct (f (browser m)) as [[a|e] b]. Qed.

Lemma exec_run (f : Web.Browser -> Web.Browser) (m : Machine) :
  exec f m = (Normal tt, mkMachine (this m) (f (browser m))).
Proof. reflexivity. Qed.

Lemma axios_get_run (url : str) (b : Web.Browser) :
  Web.axios_get url b =
  (match Web.network b url with
   | Web.NoResponse => inr Web.NetworkError
   | Web.Response status body =>
       if Web.validateStatus status then inl body
       else inr (Web.BadStatus status)
   end,
   Web.emit (Web.Request url) b).
Proof.
  unfold Web.axios_get. destruct (Web.network b url) as [|status body];
    [reflexivity|]. now destruct (Web.validateStatus status).
Qed.

(** The browser after the calls of the success path. *)
Lemma save_steps (b : Web.Browser) (request url name : str)
    (blob : Web.bytes) :
  let a := download_link url name in
  Web.revokeObjectURL url
    (Web.remove a
       (Web.click a
          (Web.appendChild a
             (Web.emit (Web.CreateObjectURL url)
                (Web.mkBrowser (Web.network b)
                   ((url, blob) :: Web.objectURLs b) (N.succ (Web.issued b))
                   (Web.bodyChildren b)
                   (Web.log (Web.emit (Web.Request request) b)))))))
  = Web.mkBrowser (Web.network b)
      (filter (fun e => negb (str_eqb (fst e) url)) (Web.objectURLs b))
      (N.succ (Web.issued b))
      (Web.remove_first a (Web.bodyChildren b ++ [a]) Web.anchor_eqb)
      (Web.log b ++
       [Web.Request request; Web.CreateObjectURL url; Web.AppendChild a;
        Web.Click a; Web.Save name blob; Web.RemoveChild a;
        Web.RevokeObjectURL url]).
Proof.
  destruct b as [net urls iss kids lg]. cbv zeta. unfold download_link.
  cbv [Web.revokeObjectURL Web.remove Web.click Web.appendChild Web.emit
       Web.network Web.objectURLs Web.issued Web.bodyChildren Web.log
       Web.href Web.download].
  cbn [Web.resolve]. rewrite str_eqb_refl.
  cbn [Web.network Web.objectURLs Web.issued Web.bodyChildren Web.log
       filter fst].
  rewrite str_eqb_refl. cbn [negb].
  rewrite <- !app_assoc. reflexivity.
Qed.

Lemma resolve_revoked (url : str) (store : list (str * Web.bytes)) :
  Web.resolve url (filter (fun e => negb (str_eqb (fst e) url)) store) = None.
Proof.
  induction store as [|[u blob] store IH]; [reflexivity|].
  cbn [filter fst]. destruct (str_eqb u url) eqn:E; cbn [negb]; [exact IH|].
  cbn [Web.resolve]. now rewrite E.
Qed.

Section Host.

Variable API_BASE : str.
Variable LocalTZA : Z -> Z.
Variable hostDateParse : str -> option Z.
Variable hostToUpperCase : str -> str.

Local Abbreviation run :=
  (downloadTranscript API_BASE LocalTZA hostDateParse hostToUpperCase).
Local Abbreviation filename_on :=
  (filename_on LocalTZA hostDateParse hostToUpperCase).
Local Abbreviation answer := (answer API_BASE).
Local Abbreviation failure := (failure API_BASE).

(** A run whose request is answered with a status that axios accepts. *)
Lemma run_success (m : Machine) (status : Z) (body : Web.bytes) :
  answer m = Web.Response status body ->
  Web.validateStatus status = true ->
  let b := browser m in
  let url := Web.objectURL (Web.issued b) in
  let a := download_link url (filename_on m) in
  run m =
  (Normal tt,
   mkMachine (this m)
     (Web.mkBrowser (Web.network b)
        (filter (fun e => negb (str_eqb (fst e) url)) (Web.objectURLs b))
        (N.succ (Web.issued b))
        (Web.remove_first a (Web.bodyChildren b ++ [a]) Web.anchor_eqb)
        (Web.log b ++
         [Web.Request (transcript_url API_BASE (uid (result (this m))));
          Web.CreateObjectURL url;
          Web.AppendChild a;
          Web.Click a;
          Web.Save (filename_on m) body;
          Web.RemoveChild a;
          Web.RevokeObjectURL url]))).
Proof.
  intros A V. cbv zeta.
  unfold ResultCard.answer in A.
  unfold downloadTranscript, try_catch.
  rewrite bind_read, bind_await, axios_get_run, A, V. cbn [fst snd].
  rewrite !bind_read. cbv zeta.
  rewrite bind_call, !bind_exec, exec_run.
  unfold Web.createObjectURL, Web.newBlob.
  cbn [fst snd this browser Web.href Web.download concat].
  rewrite app_nil_r.
  pose proof (save_steps (browser m)
                (transcript_url API_BASE (uid (result (this m))))
                (Web.objectURL (Web.issued (browser m))) (filename_on m) body)
    as S.
  cbv zeta in S. unfold download_link in *.
  cbn [Web.emit Web.network Web.objectURLs Web.issued Web.bodyChildren
       Web.log] in S |- *.
  unfold ResultCard.filename_on in *. cbv zeta in S.
  rewrite S. reflexivity.
Qed.

Lemma run_failure (m : Machine) (e : Web.Error) :
  failure m = Some e ->
  let b := browser m in
  run m =
  (Normal tt,
   mkMachine (this m)
     (Web.mkBrowser (Web.network b) (Web.objectURLs b) (Web.issued b)
        (Web.bodyChildren b)
        (Web.log b ++
         [Web.Request (transcript_url API_BASE (uid (result (this m))));
          Web.ConsoleError console_message e;
          Web.Alert alert_message]))).
Proof.
  intros F. cbv zeta.
  unfold ResultCard.failure, ResultCard.answer in F.
  unfold downloadTranscript, try_catch.
  rewrite bind_read, bind_await, axios_get_run. cbn [fst snd].
  destruct (Web.network (browser m) _) as [|status body];
    [|destruct (Web.validateStatus status); [discriminate|]];
    inversion F; subst e.
  all: rewrite bind_exec, exec_run.
  all: destruct (browser m) as [net urls iss kids lg].
  all: unfold Web.console_error, Web.alert, Web.emit.
  all: cbn [this browser Web.network Web.objectURLs Web.issued
            Web.bodyChildren Web.log].
  all: rewrite <- !app_assoc; reflexivity.
Qed.

(** Every request is answered or fails. *)
Lemma answered_or_failed (m : Machine) :
  (exists status body,
      answer m = Web.Response status body /\
      Web.validateStatus status = true) \/
  (exists e, failure m = Some e).
Proof.
  unfold ResultCard.failure. destruct (answer m) as [|status body].
  - right. now exists Web.NetworkError.
  - destruct (Web.validateStatus status) eqn:V.
    + left. now exists status, body.
    + right. now exists (Web.BadStatus status).
Qed.

End Host.

End RunFacts.

(* ================================================================== *)
(** * The properties of the card *)
(* ================================================================== *)

Import JS JSDate ResultCard Described.
Import StringFacts HighlightFacts DateFacts TitleFacts RunFacts.

Section Download.

Variable API_BASE : str.
Variable LocalTZA : Z -> Z.
Variable hostDateParse : str -> option Z.
Variable hostToUpperCase : str -> str.

Local Abbreviation run :=
  (downloadTranscript API_BASE LocalTZA hostDateParse hostToUpperCase).
Local Abbreviation filename_on :=
  (filename_on LocalTZA hostDateParse hostToUpperCase).
Local Abbreviation answer := (answer API_BASE).
Local Abbreviation failure := (failure API_BASE).

Lemma council_capitalised :
  authority_of hostToUpperCase (lit "council") = lit "Council".
Proof. reflexivity. Qed.

Lemma full_council_meeting :
  title_of (lit "Full Council Meeting - March") = lit "FullCouncilMeeting".
Proof. vm_compute. reflexivity. Qed.

Lemma march_fifth_parses :
  parse hostDateParse (lit "2024-03-05T10:00:00Z") = Some 1709632800000%Z.
Proof. reflexivity. Qed.

Lemma march_fifth_local (t : Z) :
  (1709596800000 <= t < 1709683200000)%Z ->
  written (civil_of_time t) = lit "2024-03-05".
Proof.
  intros H.
  rewrite (civil_of_time_same_day t 1709596800000%Z).
  - vm_compute. reflexivity.
  - unfold Day, msPerDay. euclid.
Qed.

(** C1. The card of the meeting "Full Council Meeting - March" of the
    authority "council", dated 2024-03-05T10:00:00Z, uid abc123: a run whose
    request succeeds completes normally and saves exactly one file; its
    content is the response body, unchanged, and its name is
    Council-FullCouncilMeeting-[D].txt where D is the local calendar date of
    that instant, which is 2024-03-05 wherever local time is from ten hours
    behind UTC to less than fourteen hours ahead. *)
Theorem end_to_end_example (m : Machine) (sn st lk : str)
    (status : Z) (body : Web.bytes) :
  result (this m) =
    mkSearchResult (lit "abc123") (lit "Full Council Meeting - March") sn
      (lit "2024-03-05T10:00:00Z") st lk (lit "council") ->
  answer m = Web.Response status body ->
  Web.validateStatus status = true ->
  let local := written (civil_of_time (LocalTime LocalTZA 1709632800000)) in
  fst (run m) = Normal tt /\
  Web.saved (emitted m (snd (run m))) =
    [(lit "Council-FullCouncilMeeting-[" ++ local ++ lit "].txt", body)] /\
  Web.requests (emitted m (snd (run m))) =
    [API_BASE ++ lit "/meetings/download_transcript/abc123"] /\
  ((-36000000 <= LocalTZA 1709632800000 < 50400000)%Z ->
   local = lit "2024-03-05").
Proof.
  intros R A V. cbv zeta.
  rewrite (run_success _ _ _ _ _ _ _ A V). cbn [fst snd].
  unfold emitted. cbn [browser Web.log]. rewrite skipn_emitted.
  cbn [Web.saved Web.requests flat_map app].
  unfold ResultCard.filename_on. rewrite R. cbn [authority title datetime uid].
  rewrite council_capitalised, full_council_meeting.
  rewrite (date_str_of_valid LocalTZA _ _ _ march_fifth_parses).
  split; [reflexivity|]. split; [reflexivity|]. split; [reflexivity|].
  intros H. apply march_fifth_local. unfold LocalTime. lia.
Qed.

(** C4. A run whose request fails (no response, or a status outside
    200-299): the error is caught, so the run completes normally; it is logged
    once and one alert is shown; no file is saved, no object URL is made, the
    request is not sent again, and nothing else happens. *)
Theorem failed_fetch_alerts_once (m : Machine) (e : Web.Error) :
  failure m = Some e ->
  fst (run m) = Normal tt /\
  emitted m (snd (run m)) =
    [Web.Request (transcript_url API_BASE (uid (result (this m))));
     Web.ConsoleError console_message e;
     Web.Alert alert_message] /\
  Web.alerts (emitted m (snd (run m))) = [alert_message] /\
  Web.saved (emitted m (snd (run m))) = [] /\
  Web.created (emitted m (snd (run m))) = [] /\
  Web.requests (emitted m (snd (run m))) =
    [transcript_url API_BASE (uid (result (this m)))].
Proof.
  intros F. rewrite (run_failure _ _ _ _ _ _ F). cbn [fst snd].
  unfold emitted. cbn [browser Web.log]. rewrite skipn_emitted.
  repeat split.
Qed.

(** C5. On every run the object URLs made are the object URLs revoked, in
    the same order and as often, and none of them is live afterwards.  On a
    run whose request succeeds there is one such URL; it is made before the
    click that saves the file and revoked once, after it. *)
Theorem object_url_revoked_once (m : Machine) :
  let ev := emitted m (snd (run m)) in
  Web.created ev = Web.revoked ev /\
  (forall u, In u (Web.created ev) ->
             Web.resolve u (Web.objectURLs (browser (snd (run m)))) = None) /\
  (forall status body,
      answer m = Web.Response status body ->
      Web.validateStatus status = true ->
      let u := Web.objectURL (Web.issued (browser m)) in
      let a := download_link u (filename_on m) in
      Web.created ev = [u] /\
      Web.revoked ev = [u] /\
      ev = [Web.Request (transcript_url API_BASE (uid (result (this m))));
            Web.CreateObjectURL u;
            Web.AppendChild a;
            Web.Click a;
            Web.Save (filename_on m) body;
            Web.RemoveChild a;
            Web.RevokeObjectURL u]).
Proof.
  cbv zeta.
  destruct (answered_or_failed API_BASE m) as [(status & body & A & V)|(e & F)].
  - rewrite (run_success _ _ _ _ _ _ _ A V). cbn [fst snd].
    unfold emitted. cbn [browser Web.log Web.objectURLs].
    rewrite skipn_emitted.
    cbn [Web.created Web.revoked flat_map app].
    split; [reflexivity|]. split.
    + intros u [<-|[]]. apply resolve_revoked.
    + intros status' body' A' _. rewrite A in A'. inversion A'; subst.
      repeat split.
  - rewrite (run_failure _ _ _ _ _ _ F). cbn [fst snd].
    unfold emitted. cbn [browser Web.log Web.objectURLs].
    rewrite skipn_emitted.
    cbn [Web.created Web.revoked flat_map app].
    split; [reflexivity|]. split.
    + intros u [].
    + intros status body A V. unfold ResultCard.failure in F.
      rewrite A, V in F. discriminate.
Qed.

(** C9. Neither the highlight nor a download changes the component: the
    bound result, with all its fields, is the same afterwards, and the
    highlight changes nothing at all.  The component keeps nothing from one
    download to the next: a second run ends the same way, saves the same
    files and shows the same alerts as the first. *)
Theorem card_only_reads (m : Machine) :
  highlightedSnippet m = (Normal (highlight (snippet (result (this m)))), m) /\
  this (snd (run m)) = this m /\
  (let m1 := snd (run m) in
   let m2 := snd (run m1) in
   fst (run m1) = fst (run m) /\
   Web.saved (emitted m1 m2) = Web.saved (emitted m m1) /\
   Web.alerts (emitted m1 m2) = Web.alerts (emitted m m1)).
Proof.
  split; [reflexivity|]. cbv zeta.
  destruct (answered_or_failed API_BASE m) as [(status & body & A & V)|(e & F)].
  - rewrite (run_success _ _ _ _ _ _ _ A V). cbn [fst snd].
    split; [reflexivity|].
    match goal with
    | |- context [run ?m1] =>
        assert (A1 : answer m1 = Web.Response status body) by exact A;
        rewrite (run_success _ _ _ _ _ _ _ A1 V)
    end.
    cbn [fst snd]. unfold emitted. cbn [browser Web.log this].
    rewrite !skipn_emitted. repeat split.
  - rewrite (run_failure _ _ _ _ _ _ F). cbn [fst snd].
    split; [reflexivity|].
    match goal with
    | |- context [run ?m1] =>
        assert (F1 : failure m1 = Some e) by exact F;
        rewrite (run_failure _ _ _ _ _ _ F1)
    end.
    cbn [fst snd]. unfold emitted. cbn [browser Web.log this].
    rewrite !skipn_emitted. repeat split.
Qed.

(** C10. When the datetime does not parse, a run whose request succeeds
    still completes normally and shows no alert; the date in the file name
    is NaN-NaN-NaN, so the file is saved as
    {Authority}-{ShortTitle}-[NaN-NaN-NaN].txt. *)
Theorem unparseable_date_NaN (m : Machine) (status : Z) (body : Web.bytes) :
  parse hostDateParse (datetime (result (this m))) = None ->
  answer m = Web.Response status body ->
  Web.validateStatus status = true ->
  date_str_of LocalTZA hostDateParse (datetime (result (this m))) =
    lit "NaN-NaN-NaN" /\
  fst (run m) = Normal tt /\
  Web.alerts (emitted m (snd (run m))) = [] /\
  Web.saved (emitted m (snd (run m))) =
    [(authority_of hostToUpperCase (authority (result (this m))) ++ lit "-" ++
      title_of (title (result (this m))) ++ lit "-[NaN-NaN-NaN].txt", body)].
Proof.
  intros P A V.
  rewrite (run_success _ _ _ _ _ _ _ A V). cbn [fst snd].
  unfold emitted. cbn [browser Web.log]. rewrite skipn_emitted.
  cbn [Web.saved Web.alerts flat_map app].
  unfold ResultCard.filename_on, filename_of. cbv zeta.
  rewrite (date_str_of_invalid LocalTZA _ _ P).
  repeat split.
Qed.

Lemma example_date_on_day (tza : Z -> Z) (off d0 : Z) :
  tza 1709632800000%Z = off ->
  ((1709632800000 + off) / 86400000 = d0)%Z ->
  date_str_of tza hostDateParse (lit "2024-03-05T10:00:00Z") =
  written (civil_of_time (d0 * msPerDay)).
Proof.
  intros O D.
  rewrite (date_str_of_valid tza _ _ _ march_fifth_parses).
  apply f_equal, civil_of_time_same_day.
  rewrite Day_of_midnight. unfold LocalTime, Day, msPerDay. now rewrite O.
Qed.

(** C6. When the datetime parses to the time value t, the date in the file
    name is the year, the month in two digits and the day of the month in
    two digits, with hyphens between, of the one calendar date whose day is
    the local day of the instant, the day number of t plus the host's offset
    from UTC at t: the calendar is the Gregorian one counted on its own
    (leap years, month lengths, days since 1970-01-01), not the algorithms
    of the Date object.  With a year of four digits the date is ten units
    long.  For 2024-03-05T10:00:00Z the date is 2024-03-06 on a host
    fourteen hours ahead of UTC, 2024-03-04 on a host eleven hours behind,
    and 2024-03-05 on a host in UTC. *)
Theorem date_segment_local_calendar :
  (forall (dt : str) (t : Z),
      parse hostDateParse dt = Some t ->
      exists y m d : Z,
        (1 <= m <= 12)%Z /\
        (1 <= d <= month_length y m)%Z /\
        days_from_civil y m d = local_day t (LocalTZA t) /\
        (forall y' m' d' : Z,
            (1 <= m' <= 12)%Z ->
            (1 <= d' <= month_length y' m')%Z ->
            days_from_civil y' m' d' = local_day t (LocalTZA t) ->
            y' = y /\ m' = m /\ d' = d) /\
        date_str_of LocalTZA hostDateParse dt =
          toString (Int y) ++ lit "-" ++ two_digits m ++ lit "-"
          ++ two_digits d /\
        ((1000 <= y <= 9999)%Z ->
         length (date_str_of LocalTZA hostDateParse dt) = 10)) /\
  (forall tza : Z -> Z,
      tza 1709632800000%Z = 50400000%Z ->
      date_str_of tza hostDateParse (lit "2024-03-05T10:00:00Z")
      = lit "2024-03-06") /\
  (forall tza : Z -> Z,
      tza 1709632800000%Z = (-39600000)%Z ->
      date_str_of tza hostDateParse (lit "2024-03-05T10:00:00Z")
      = lit "2024-03-04") /\
  (forall tza : Z -> Z,
      tza 1709632800000%Z = 0%Z ->
      date_str_of tza hostDateParse (lit "2024-03-05T10:00:00Z")
      = lit "2024-03-05").
Proof.
  split; [|split; [|split]].
  - intros dt t P.
    pose proof (civil_of_time_spec (t + LocalTZA t)) as (M & D & K).
    cbv zeta in M, D, K.
    set (c := civil_of_time (t + LocalTZA t)) in *.
    rewrite DaysInMonth_month_length in D by exact M.
    rewrite MakeDay_days_from_civil in K by exact M.
    assert (L : Day (t + LocalTZA t) = local_day t (LocalTZA t))
      by reflexivity.
    rewrite L in K.
    assert (S : date_str_of LocalTZA hostDateParse dt = written c)
      by (rewrite (date_str_of_valid LocalTZA _ _ _ P); reflexivity).
    exists (year c), (month c), (day c).
    split; [exact M|]. split; [exact D|]. split; [exact K|].
    split; [|split; [exact S|]].
    + intros y' m' d' M' D' K'.
      apply (days_from_civil_inj _ _ _ _ _ _ M D M' D').
      now rewrite K, K'.
    + intros Y. rewrite S. unfold written, toString.
      destruct (Z.ltb_spec (year c) 0); [lia|].
      rewrite !length_app, digits_four by exact Y. reflexivity.
  - intros tza O.
    rewrite (example_date_on_day tza 50400000 19788 O eq_refl).
    vm_compute. reflexivity.
  - intros tza O.
    rewrite (example_date_on_day tza (-39600000) 19786 O eq_refl).
    vm_compute. reflexivity.
  - intros tza O.
    rewrite (example_date_on_day tza 0 19787 O eq_refl).
    vm_compute. reflexivity.
Qed.

(** C7. The authority in the file name is the authority with its first code
    unit put through toUpperCase and everything after it as it was: a
    first unit a-z becomes A-Z, any other ASCII first unit stays, and the
    rest is never touched.  council gives Council; COUNCIL gives COUNCIL. *)
Theorem authority_first_unit_uppercased :
  authority_of hostToUpperCase [] = [] /\
  (forall c rest,
      authority_of hostToUpperCase (c :: rest) =
      toUpperCase hostToUpperCase [c] ++ rest) /\
  (forall c,
      toUpperCase hostToUpperCase [c] =
      if isAscii c then [if isLower c then (c - 32)%N else c]
      else hostToUpperCase [c]) /\
  authority_of hostToUpperCase (lit "council") = lit "Council" /\
  authority_of hostToUpperCase (lit "COUNCIL") = lit "COUNCIL".
Proof.
  split; [reflexivity|]. split; [reflexivity|]. split; [|split; reflexivity].
  intros c. unfold toUpperCase. cbn [forallb map]. rewrite andb_true_r.
  reflexivity.
Qed.

(** C8. A title without tokens (nothing but whitespace is left of it after
    the strip) gives an empty short title, and the file name is still put
    together the same way: the authority, two hyphens, the date in
    brackets, .txt. *)
Theorem empty_title_double_hyphen (m : Machine) :
  title_tokens (title (result (this m))) = [] ->
  title_of (title (result (this m))) = [] /\
  filename_on m =
    authority_of hostToUpperCase (authority (result (this m))) ++ lit "--["
    ++ date_str_of LocalTZA hostDateParse (datetime (result (this m)))
    ++ lit "].txt".
Proof.
  intros T. apply title_of_no_tokens in T. split; [exact T|].
  unfold ResultCard.filename_on, filename_of. cbv zeta. rewrite T.
  reflexivity.
Qed.

End Download.

(** C2, as first stated, fails.  The letter e with acute accent (U+00E9)
    is stripped although it is a letter.  In "Planning Committee - March
    Meeting" the strip of the hyphen leaves two spaces in a row, the split on
    one space counts the empty piece between them as a token, and the short
    title has two words where the first three tokens have three.  A tab
    between two words does not part them. *)
Lemma short_title_counterexample :
  title_of (lit "Caf" ++ [233%N] ++ lit " Society") = lit "CafSociety" /\
  title_of (lit "Planning Committee - March Meeting")
    = lit "PlanningCommittee" /\
  short_title (lit "Planning Committee - March Meeting")
    = lit "PlanningCommitteeMarch" /\
  title_of (lit "Planning Committee - March Meeting")
    <> short_title (lit "Planning Committee - March Meeting") /\
  title_of (lit "Budget" ++ [9%N] ++ lit "Review Q3 Final Draft")
    = lit "Budget" ++ [9%N] ++ lit "ReviewQ3Final" /\
  short_title (lit "Budget" ++ [9%N] ++ lit "Review Q3 Final Draft")
    = lit "BudgetReviewQ3".
Proof.
  split; [vm_compute; reflexivity|]. split; [vm_compute; reflexivity|].
  split; [vm_compute; reflexivity|]. split; [vm_compute; discriminate|].
  split; vm_compute; reflexivity.
Qed.

(** C2. The first step keeps the letters a-z and A-Z, the digits 0-9 and the
    whitespace of the title and removes every other code unit.  Where what
    is left, once trimmed, is empty, or its first three pieces between single
    U+0020 (all of them, if there are fewer) are not empty and hold no
    whitespace, the short title is the first three tokens (or fewer, if
    there are fewer) one after the other. *)
Theorem short_title_first_tokens (t : str) :
  replace_global other_pattern [] t = strip t /\
  (forallb token_like (firstn 3 (split space (trim (strip t)))) = true \/
   trim (strip t) = [] ->
   title_of t = concat (firstn 3 (tokens (trim (strip t))))).
Proof.
  split; [apply sanitize_strip|].
  intros H. now rewrite (title_of_token_like t H).
Qed.

(** C3. The snippet made of an opening bracket, the run a, line feed, b,
    and a closing bracket: the run is the shortest one up to a closing
    bracket, so the three together are to be replaced by the run inside the
    highlight span; the card returns the snippet as it is, because the dot
    of its pattern stops at the line feed. *)
Lemma highlight_line_break_counterexample :
  let x := lit "a" ++ [10%N] ++ lit "b" in
  until_close (x ++ [close_bracket]) = Some (x, []) /\
  highlight (open_bracket :: x ++ [close_bracket]) =
    open_bracket :: x ++ [close_bracket] /\
  highlight (open_bracket :: x ++ [close_bracket]) <>
    span_open ++ x ++ span_close.
Proof.
  cbv zeta. split; [reflexivity|]. split; [reflexivity|].
  vm_compute. discriminate.
Qed.

(** X12. The highlight goes through the snippet once, from left to right.
    A unit that is not an opening bracket is copied.  An opening bracket
    followed by a run without closing bracket and without line terminator
    and then a closing bracket is replaced, the three together, by the run
    inside the highlight span, and the scan goes on after the closing
    bracket: what was put in is not scanned again.  An opening bracket with
    no closing bracket after it, or with a line terminator before the first
    one, is copied.  So a snippet without opening brackets, or without
    closing brackets, comes back unchanged. *)
Theorem highlight_brackets :
  (forall m,
      highlightedSnippet m =
      (Normal (highlight (snippet (result (this m)))), m)) /\
  highlight [] = [] /\
  (forall c s,
      unit_eqb c open_bracket = false -> highlight (c :: s) = c :: highlight s)
  /\
  (forall x rest,
      forallb (fun c => negb (unit_eqb c close_bracket)) x = true ->
      forallb dot x = true ->
      highlight (open_bracket :: x ++ close_bracket :: rest) =
      span_open ++ x ++ span_close ++ highlight rest) /\
  (forall s,
      until_close s = None ->
      highlight (open_bracket :: s) = open_bracket :: highlight s) /\
  (forall s x rest,
      until_close s = Some (x, rest) ->
      forallb dot x = false ->
      highlight (open_bracket :: s) = open_bracket :: highlight s) /\
  (forall s,
      forallb (fun c => negb (unit_eqb c open_bracket)) s = true \/
      forallb (fun c => negb (unit_eqb c close_bracket)) s = true ->
      highlight s = s).
Proof.
  split; [reflexivity|]. split; [reflexivity|].
  split; [|split; [|split; [|split]]].
  - intros c s H. now rewrite highlight_cons, H.
  - intros x rest Hx Hd.
    rewrite highlight_cons, (until_close_found x rest Hx), Hd. reflexivity.
  - intros s H. rewrite highlight_cons, H. reflexivity.
  - intros s x rest H D. rewrite highlight_cons, H, D. reflexivity.
  - intros s [H|H]; [now apply highlight_no_open | now apply highlight_no_close].
Qed.

Lemma end_to_end_example_witness :
  result (this (Example.card Example.march Example.online)) =
    mkSearchResult (lit "abc123") (lit "Full Council Meeting - March")
      (lit "the [budget] was agreed") (lit "2024-03-05T10:00:00Z")
      (lit "00:10:00") (lit "https://video.example/1") (lit "council") /\
  ResultCard.answer Example.api (Example.card Example.march Example.online) =
    Web.Response 200 Example.transcript /\
  Web.validateStatus 200 = true /\
  Web.saved
    (emitted (Example.card Example.march Example.online)
       (snd (Example.run (Example.card Example.march Example.online)))) =
  [(lit "Council-FullCouncilMeeting-[2024-03-05].txt", Example.transcript)].
Proof.
  split; [reflexivity|]. split; [reflexivity|]. split; [reflexivity|].
  destruct (end_to_end_example Example.api Example.utc Example.no_host_parse
              Example.plain_upper
              (Example.card Example.march Example.online) _ _ _
              200%Z Example.transcript
              eq_refl eq_refl eq_refl) as (_ & S & _ & D).
  rewrite D in S by (unfold Example.utc; lia).
  exact S.
Defined.

Lemma failed_fetch_alerts_once_witness :
  ResultCard.failure Example.api (Example.card Example.march Example.offline)
    = Some Web.NetworkError /\
  fst (Example.run (Example.card Example.march Example.offline)) = Normal tt /\
  Web.alerts
    (emitted (Example.card Example.march Example.offline)
       (snd (Example.run (Example.card Example.march Example.offline))))
    = [alert_message] /\
  Web.saved
    (emitted (Example.card Example.march Example.offline)
       (snd (Example.run (Example.card Example.march Example.offline))))
    = [].
Proof.
  split; [reflexivity|].
  destruct (failed_fetch_alerts_once Example.api Example.utc
              Example.no_host_parse Example.plain_upper
              (Example.card Example.march Example.offline)
              Web.NetworkError eq_refl) as (N & _ & A & S & _).
  exact (conj N (conj A S)).
Defined.

Lemma unparseable_date_NaN_witness :
  parse Example.no_host_parse (lit "some day") = None /\
  ResultCard.answer Example.api (Example.card Example.undated Example.online) =
    Web.Response 200 Example.transcript /\
  Web.validateStatus 200 = true /\
  Web.saved
    (emitted (Example.card Example.undated Example.online)
       (snd (Example.run (Example.card Example.undated Example.online))))
    = [(lit "Council--[NaN-NaN-NaN].txt", Example.transcript)].
Proof.
  split; [reflexivity|]. split; [reflexivity|]. split; [reflexivity|].
  destruct (unparseable_date_NaN Example.api Example.utc Example.no_host_parse
              Example.plain_upper
              (Example.card Example.undated Example.online)
              200%Z Example.transcript
              eq_refl eq_refl eq_refl) as (_ & _ & _ & S).
  exact S.
Defined.

Lemma object_url_revoked_once_witness :
  ResultCard.answer Example.api (Example.card Example.march Example.online) =
    Web.Response 200 Example.transcript /\
  Web.validateStatus 200 = true /\
  Web.created
    (emitted (Example.card Example.march Example.online)
       (snd (Example.run (Example.card Example.march Example.online))))
    = [lit "blob:0"] /\
  Web.revoked
    (emitted (Example.card Example.march Example.online)
       (snd (Example.run (Example.card Example.march Example.online))))
    = [lit "blob:0"].
Proof.
  split; [reflexivity|]. split; [reflexivity|].
  destruct (object_url_revoked_once Example.api Example.utc
              Example.no_host_parse Example.plain_upper
              (Example.card Example.march Example.online)) as (_ & _ & S).
  destruct (S 200%Z Example.transcript eq_refl eq_refl) as (C & R & _).
  exact (conj C R).
Defined.

Lemma date_segment_local_calendar_witness :
  parse Example.no_host_parse (lit "2024-03-05T10:00:00Z")
    = Some 1709632800000%Z /\
  days_from_civil 2024 3 5 = local_day 1709632800000 (Example.utc 1709632800000)
  /\
  date_str_of Example.utc Example.no_host_parse (lit "2024-03-05T10:00:00Z")
    = lit "2024-03-05" /\
  Example.east14 1709632800000%Z = 50400000%Z /\
  date_str_of Example.east14 Example.no_host_parse
    (lit "2024-03-05T10:00:00Z") = lit "2024-03-06" /\
  Example.west11 1709632800000%Z = (-39600000)%Z /\
  date_str_of Example.west11 Example.no_host_parse
    (lit "2024-03-05T10:00:00Z") = lit "2024-03-04".
Proof.
  destruct (date_segment_local_calendar Example.utc Example.no_host_parse)
    as (A & E & W & _).
  split; [reflexivity|]. split; [reflexivity|]. split.
  - destruct (A (lit "2024-03-05T10:00:00Z") 1709632800000%Z eq_refl)
      as (y & m & d & _ & _ & _ & U & S & _).
    destruct (U 2024%Z 3%Z 5%Z ltac:(lia) ltac:(vm_compute; split; discriminate)
                eq_refl) as (Ey & Em & Ed).
    rewrite S, <- Ey, <- Em, <- Ed. reflexivity.
  - split; [reflexivity|]. split; [exact (E Example.east14 eq_refl)|].
    split; [reflexivity|]. exact (W Example.west11 eq_refl).
Defined.

Lemma empty_title_double_hyphen_witness :
  title_tokens (lit "?!") = [] /\
  filename_on Example.utc Example.no_host_parse Example.plain_upper
    (Example.card Example.undated Example.online)
    = lit "Council--[NaN-NaN-NaN].txt".
Proof.
  split; [reflexivity|].
  destruct (empty_title_double_hyphen Example.utc Example.no_host_parse
              Example.plain_upper
              (Example.card Example.undated Example.online) eq_refl)
    as (_ & F).
  exact F.
Defined.

Lemma highlight_brackets_witness :
  forallb (fun c => negb (unit_eqb c close_bracket)) (lit "budget") = true /\
  forallb dot (lit "budget") = true /\
  highlight (lit "[budget] was agreed") =
    span_open ++ lit "budget" ++ span_close ++ lit " was agreed".
Proof.
  split; [reflexivity|]. split; [reflexivity|].
  destruct highlight_brackets as (_ & _ & _ & B & _ & _ & U).
  pose proof (B (lit "budget") (lit " was agreed") eq_refl eq_refl) as E.
  rewrite (U (lit " was agreed") (or_introl eq_refl)) in E.
  exact E.
Defined.

Lemma short_title_first_tokens_witness :
  forallb token_like
    (firstn 3 (split space (trim (strip (lit "Full Council Meeting - March")))))
    = true /\
  title_of (lit "Full Council Meeting - March") = lit "FullCouncilMeeting" /\
  forallb token_like
    (firstn 3 (split space (trim (strip (lit "Budget Review: Q3!!"))))) = true /\
  title_of (lit "Budget Review: Q3!!") = lit "BudgetReviewQ3".
Proof.
  split; [reflexivity|]. split.
  - destruct (short_title_first_tokens (lit "Full Council Meeting - March"))
      as (_ & T).
    exact (T (or_introl eq_refl)).
  - split; [reflexivity|].
    destruct (short_title_first_tokens (lit "Budget Review: Q3!!")) as (_ & T).
    exact (T (or_introl eq_refl)).
Defined.

(* ================================================================== *)
(** * Further properties: lemmas *)
(* ================================================================== *)

Module MoreFacts.

Import Shapes.

(** ** The highlight on joined strings *)

Lemma highlight_app_no_open (a b : str) :
  no_unit open_bracket a = true -> highlight (a ++ b) = a ++ highlight b.
Proof.
  induction a as [|c a IH]; intros H; [reflexivity|].
  cbn [no_unit forallb] in H. apply andb_true_iff in H as [Hc Ha].
  apply negb_true_iff in Hc.
  cbn [app]. rewrite highlight_cons, Hc. f_equal. now apply IH.
Qed.

Lemma highlight_hit (x rest : str) :
  no_unit close_bracket x = true ->
  forallb dot x = true ->
  highlight (open_bracket :: x ++ close_bracket :: rest) =
  span_open ++ x ++ span_close ++ highlight rest.
Proof.
  intros Hx Hd.
  rewrite highlight_cons, (until_close_found x rest Hx), Hd. reflexivity.
Qed.

Lemma until_close_app_some (a x rest t : str) :
  until_close a = Some (x, rest) -> until_close (a ++ t) = Some (x, rest ++ t).
Proof.
  revert x rest.
  induction a as [|c a IH]; intros x rest H; [discriminate|].
  cbn [until_close app] in *.
  destruct (unit_eqb c close_bracket).
  - now inversion H.
  - destruct (until_close a) as [[x' rest']|]; [|discriminate].
    inversion H; subst. now rewrite (IH x' rest eq_refl).
Qed.

Lemma until_close_app_none (a t : str) :
  until_close a = None ->
  until_close (a ++ t) =
  match until_close t with
  | Some (y, r) => Some (a ++ y, r)
  | None => None
  end.
Proof.
  induction a as [|c a IH]; intros H.
  - cbn [app]. now destruct (until_close t) as [[y r]|].
  - cbn [until_close app] in *.
    destruct (unit_eqb c close_bracket); [discriminate|].
    destruct (until_close a) as [[x' rest']|]; [discriminate|].
    rewrite (IH eq_refl). now destruct (until_close t) as [[y r]|].
Qed.

Lemma line_terminator_no_bracket (c : unit16) :
  isLineTerminator c = true ->
  unit_eqb c open_bracket = false /\ unit_eqb c close_bracket = false.
Proof.
  intros H. split.
  - destruct (unit_eqb c open_bracket) eqn:E; [|reflexivity].
    apply unit_eqb_eq in E. subst c. discriminate.
  - destruct (unit_eqb c close_bracket) eqn:E; [|reflexivity].
    apply unit_eqb_eq in E. subst c. discriminate.
Qed.

Lemma highlight_line_break (n : nat) :
  forall a c b,
    length a <= n ->
    isLineTerminator c = true ->
    highlight (a ++ c :: b) = highlight a ++ c :: highlight b.
Proof.
  induction n as [|n IH]; intros a c b Hn Hc;
    destruct (line_terminator_no_bracket c Hc) as [Ho Hcl].
  - destruct a; [|cbn [length] in Hn; lia].
    cbn [app]. now rewrite highlight_cons, Ho.
  - destruct a as [|x a]; [cbn [app]; now rewrite highlight_cons, Ho|].
    cbn [length] in Hn.
    assert (Ia : highlight (a ++ c :: b) = highlight a ++ c :: highlight b)
      by (apply IH; [lia | exact Hc]).
    cbn [app]. rewrite !highlight_cons.
    destruct (unit_eqb x open_bracket); [|now rewrite Ia].
    destruct (until_close a) as [[y rest]|] eqn:U.
    + rewrite (until_close_app_some a y rest (c :: b) U).
      destruct (forallb dot y); [|now rewrite Ia].
      apply until_close_app in U.
      assert (Hr : length rest <= n).
      { subst a. rewrite length_app in Hn. cbn [length] in Hn. lia. }
      rewrite (IH rest c b Hr Hc), <- !app_assoc. reflexivity.
    + rewrite (until_close_app_none a (c :: b) U).
      cbn [until_close]. rewrite Hcl.
      destruct (until_close b) as [[y r]|]; [|now rewrite Ia].
      rewrite forallb_app. cbn [forallb]. unfold dot at 2. rewrite Hc.
      cbn [negb andb]. rewrite andb_false_r. now rewrite Ia.
Qed.

(** ** The pieces of the title *)

Lemma concat_firstn_split (s : str) :
  forall k,
    concat (firstn (S k) (split space s)) = filter not_space (upto_space k s).
Proof.
  induction s as [|c s IH]; intros k;
    [cbn [split firstn]; now rewrite firstn_nil|].
  cbn [split upto_space].
  destruct (unit_eqb c space) eqn:E.
  - cbn [firstn concat app]. destruct k as [|k]; [reflexivity|].
    cbn [filter]. unfold not_space at 1. rewrite E. cbn [negb]. apply IH.
  - cbn [filter]. unfold not_space at 1. rewrite E. cbn [negb].
    rewrite <- IH.
    destruct (split_cons space s) as (p & ps & Es). rewrite Es.
    reflexivity.
Qed.

Lemma upto_space_prefix (k : nat) (s : str) :
  exists rest, s = upto_space k s ++ rest.
Proof.
  revert k. induction s as [|c s IH]; intros k; [now exists []|].
  cbn [upto_space]. destruct (unit_eqb c space).
  - destruct k as [|k]; [now exists (c :: s)|].
    destruct (IH k) as [rest E]. exists rest. cbn [app]. now rewrite <- E.
  - destruct (IH k) as [rest E]. exists rest. cbn [app]. now rewrite <- E.
Qed.

Lemma trimStart_suffix (s : str) : exists pre, s = pre ++ trimStart s.
Proof.
  induction s as [|c s [pre IH]]; [now exists []|].
  cbn [trimStart]. destruct (isSpace c); [|now exists []].
  exists (c :: pre). cbn [app]. now rewrite <- IH.
Qed.

(** What is left of a string after [trim] is a stretch of it. *)
Lemma trim_stretch (s : str) : exists pre post, s = pre ++ trim s ++ post.
Proof.
  unfold trim, trimEnd.
  destruct (trimStart_suffix s) as [pre E].
  destruct (trimStart_suffix (rev (trimStart s))) as [post' E'].
  exists pre, (rev post').
  rewrite E at 1. f_equal.
  rewrite <- (rev_involutive (trimStart s)), E' at 1.
  now rewrite rev_app_distr.
Qed.

(** ** Digits *)

Local Open Scope Z_scope.

Lemma isDigit_digit (d : Z) : 0 <= d <= 9 -> isDigit (digit d) = true.
Proof.
  intros H.
  assert (E : d = 0 \/ d = 1 \/ d = 2 \/ d = 3 \/ d = 4 \/ d = 5 \/ d = 6 \/
              d = 7 \/ d = 8 \/ d = 9) by lia.
  repeat (destruct E as [->|E]; [reflexivity|]). now subst.
Qed.

Lemma isDigit_value (c : unit16) :
  isDigit c = true -> 0 <= Z.of_N c - 48 <= 9 /\ digit (Z.of_N c - 48) = c.
Proof.
  unfold isDigit, between. intros H.
  apply andb_true_iff in H as [L U].
  apply N.leb_le in L, U. split; [lia|].
  unfold digit. replace (48 + (Z.of_N c - 48)) with (Z.of_N c) by lia.
  apply N2Z.id.
Qed.

Lemma digits_fuel_isDigit (fuel : nat) :
  forall z acc,
    0 <= z ->
    forallb isDigit acc = true ->
    forallb isDigit (digits_fuel fuel z acc) = true.
Proof.
  induction fuel as [|f IH]; intros z acc Hz Ha; [exact Ha|].
  cbn [digits_fuel]. destruct (Z.ltb_spec z 10).
  - cbn [forallb]. now rewrite isDigit_digit by lia.
  - apply IH; [euclid|].
    cbn [forallb]. rewrite isDigit_digit by euclid. exact Ha.
Qed.

Lemma digits_isDigit (z : Z) : 0 <= z -> forallb isDigit (digits z) = true.
Proof. intros H. now apply digits_fuel_isDigit. Qed.

Lemma isDigit_hyphen (s : str) :
  forallb isDigit s = true -> forallb digit_or_hyphen s = true.
Proof.
  induction s as [|c s IH]; intros H; [reflexivity|].
  cbn [forallb] in *. apply andb_true_iff in H as [Hc Hs].
  unfold digit_or_hyphen at 1. now rewrite Hc, (IH Hs).
Qed.

Lemma toString_digit_or_hyphen (z : Z) :
  forallb digit_or_hyphen (toString (Int z)) = true.
Proof.
  unfold toString. destruct (Z.ltb_spec z 0).
  - cbn [forallb]. apply isDigit_hyphen, digits_isDigit. lia.
  - apply isDigit_hyphen, digits_isDigit. lia.
Qed.

Lemma two_digits_digit_or_hyphen (n : Z) :
  0 <= n < 100 -> forallb digit_or_hyphen (two_digits n) = true.
Proof.
  intros H. apply isDigit_hyphen. unfold two_digits. cbn [forallb].
  rewrite !isDigit_digit by euclid. reflexivity.
Qed.

(** The digits read are the digits written. *)
Lemma two_digits_read (a b : unit16) :
  isDigit a = true -> isDigit b = true ->
  two_digits (10 * (10 * 0 + (Z.of_N a - 48)) + (Z.of_N b - 48)) = [a; b].
Proof.
  intros Ha Hb.
  destruct (isDigit_value a Ha) as [Ra Ea], (isDigit_value b Hb) as [Rb Eb].
  unfold two_digits.
  set (va := Z.of_N a - 48) in *. set (vb := Z.of_N b - 48) in *.
  replace ((10 * (10 * 0 + va) + vb) / 10) with va by euclid.
  replace ((10 * (10 * 0 + va) + vb) mod 10) with vb by euclid.
  now rewrite Ea, Eb.
Qed.

Lemma digits_read_four (a b c d : unit16) :
  isDigit a = true -> isDigit b = true -> isDigit c = true ->
  isDigit d = true -> a <> 48%N ->
  let year :=
    10 * (10 * (10 * (10 * 0 + (Z.of_N a - 48)) + (Z.of_N b - 48))
          + (Z.of_N c - 48)) + (Z.of_N d - 48) in
  1000 <= year /\ toString (Int year) = [a; b; c; d].
Proof.
  intros Ha Hb Hc Hd Na. cbv zeta.
  destruct (isDigit_value a Ha) as [Ra Ea], (isDigit_value b Hb) as [Rb Eb],
    (isDigit_value c Hc) as [Rc Ec], (isDigit_value d Hd) as [Rd Ed].
  assert (Pa : 1 <= Z.of_N a - 48) by lia.
  set (va := Z.of_N a - 48) in *. set (vb := Z.of_N b - 48) in *.
  set (vc := Z.of_N c - 48) in *. set (vd := Z.of_N d - 48) in *.
  set (y := 10 * (10 * (10 * (10 * 0 + va) + vb) + vc) + vd).
  assert (Y : 1000 <= y <= 9999) by (unfold y; lia).
  split; [lia|].
  unfold toString. destruct (Z.ltb_spec y 0); [lia|].
  unfold digits.
  assert (L : 9 <= Z.log2 y) by (apply (Z.log2_le_mono 1000 y); lia).
  destruct (Z.to_nat (Z.log2 y)) as [|[|[|f]]] eqn:E; try lia.
  cbn [digits_fuel].
  destruct (Z.ltb_spec y 10); [lia|].
  destruct (Z.ltb_spec (y / 10) 10); [euclid|].
  destruct (Z.ltb_spec (y / 10 / 10) 10); [euclid|].
  destruct (Z.ltb_spec (y / 10 / 10 / 10) 10); [|euclid].
  replace (y / 10 / 10 / 10) with va by (unfold y; euclid).
  replace (y / 10 / 10 mod 10) with vb by (unfold y; euclid).
  replace (y / 10 mod 10) with vc by (unfold y; euclid).
  replace (y mod 10) with vd by (unfold y; euclid).
  now rewrite Ea, Eb, Ec, Ed.
Qed.

(** ** What the decoder accepts *)

Lemma read_unit_cons (c : unit16) (s s' : str) :
  read_unit c s = Some s' -> s = c :: s'.
Proof.
  destruct s as [|x s0]; [discriminate|]. cbn [read_unit].
  destruct (unit_eqb x c) eqn:E; [|discriminate].
  apply unit_eqb_eq in E. intros H. inversion H. now subst.
Qed.

Lemma read_digits_two (s s' : str) (v : Z) :
  read_digits 2 0 s = Some (v, s') ->
  exists a b,
    s = a :: b :: s' /\ isDigit a = true /\ isDigit b = true /\
    v = 10 * (10 * 0 + (Z.of_N a - 48)) + (Z.of_N b - 48).
Proof.
  destruct s as [|a [|b s0]]; cbn [read_digits]; try discriminate;
    destruct (isDigit a) eqn:Ha; try discriminate.
  destruct (isDigit b) eqn:Hb; [|discriminate].
  intros [= <- <-]. now exists a, b.
Qed.

Lemma read_digits_three (s s' : str) (v : Z) :
  read_digits 3 0 s = Some (v, s') -> 0 <= v <= 999.
Proof.
  destruct s as [|a [|b [|c s0]]]; cbn [read_digits]; try discriminate;
    destruct (isDigit a) eqn:Ha; try discriminate;
    destruct (isDigit b) eqn:Hb; try discriminate.
  destruct (isDigit c) eqn:Hc; [|discriminate].
  intros H.
  assert (E : v = 10 * (10 * (10 * 0 + (Z.of_N a - 48)) + (Z.of_N b - 48))
                  + (Z.of_N c - 48)) by congruence.
  destruct (isDigit_value a Ha), (isDigit_value b Hb), (isDigit_value c Hc).
  lia.
Qed.

Lemma read_digits_four (s s' : str) (v : Z) :
  read_digits 4 0 s = Some (v, s') ->
  exists a b c d,
    s = a :: b :: c :: d :: s' /\
    isDigit a = true /\ isDigit b = true /\ isDigit c = true /\
    isDigit d = true /\
    v = 10 * (10 * (10 * (10 * 0 + (Z.of_N a - 48)) + (Z.of_N b - 48))
              + (Z.of_N c - 48)) + (Z.of_N d - 48).
Proof.
  destruct s as [|a [|b [|c [|d s0]]]]; cbn [read_digits]; try discriminate;
    destruct (isDigit a) eqn:Ha; try discriminate;
    destruct (isDigit b) eqn:Hb; try discriminate;
    destruct (isDigit c) eqn:Hc; try discriminate.
  destruct (isDigit d) eqn:Hd; [|discriminate].
  intros [= <- <-]. now exists a, b, c, d.
Qed.

Lemma in_range_spec (lo hi z : Z) : in_range lo hi z = true -> lo <= z <= hi.
Proof.
  unfold in_range. intros H. apply andb_true_iff in H as [L U].
  apply Z.leb_le in L, U. lia.
Qed.

(** A string that the decoder accepts: its first ten units, and the time
    value it stands for. *)
Lemma parseUTCDateTime_date (dt : str) (t : Z) :
  parseUTCDateTime dt = Some t ->
  exists y1 y2 y3 y4 m1 m2 d1 d2 rest year month date time,
    dt = y1 :: y2 :: y3 :: y4 :: 45%N :: m1 :: m2 :: 45%N :: d1 :: d2 :: rest /\
    isDigit y1 = true /\ isDigit y2 = true /\ isDigit y3 = true /\
    isDigit y4 = true /\ isDigit m1 = true /\ isDigit m2 = true /\
    isDigit d1 = true /\ isDigit d2 = true /\
    year = 10 * (10 * (10 * (10 * 0 + (Z.of_N y1 - 48)) + (Z.of_N y2 - 48))
                 + (Z.of_N y3 - 48)) + (Z.of_N y4 - 48) /\
    month = 10 * (10 * 0 + (Z.of_N m1 - 48)) + (Z.of_N m2 - 48) /\
    date = 10 * (10 * 0 + (Z.of_N d1 - 48)) + (Z.of_N d2 - 48) /\
    1 <= month <= 12 /\ 1 <= date <= DaysInMonth year (month - 1) /\
    0 <= time < msPerDay /\
    t = MakeDate (MakeDay year (month - 1) date) time.
Proof.
  unfold parseUTCDateTime. intros H.
  destruct (read_digits 4 0 dt) as [[year s1]|] eqn:E1; [|discriminate].
  cbn [bind_opt] in H.
  destruct (read_unit 45%N s1) as [s2|] eqn:E2; [|discriminate].
  cbn [bind_opt] in H.
  destruct (read_digits 2 0 s2) as [[month s3]|] eqn:E3; [|discriminate].
  cbn [bind_opt] in H.
  destruct (read_unit 45%N s3) as [s4|] eqn:E4; [|discriminate].
  cbn [bind_opt] in H.
  destruct (read_digits 2 0 s4) as [[date s5]|] eqn:E5; [|discriminate].
  cbn [bind_opt] in H.
  destruct (read_unit 84%N s5) as [s6|] eqn:E6; [|discriminate].
  cbn [bind_opt] in H.
  destruct (read_digits 2 0 s6) as [[hour s7]|] eqn:E7; [|discriminate].
  cbn [bind_opt] in H.
  destruct (read_unit 58%N s7) as [s8|] eqn:E8; [|discriminate].
  cbn [bind_opt] in H.
  destruct (read_digits 2 0 s8) as [[mi s9]|] eqn:E9; [|discriminate].
  cbn [bind_opt] in H.
  destruct (read_unit 58%N s9) as [s10|] eqn:E10; [|discriminate].
  cbn [bind_opt] in H.
  destruct (read_digits 2 0 s10) as [[sec s11]|] eqn:E11; [|discriminate].
  cbn [bind_opt] in H.
  assert (M : exists ms s12,
             0 <= ms <= 999 /\
             match read_unit 46%N s11 with
             | Some s' => read_digits 3 0 s'
             | None => Some (0, s11)
             end = Some (ms, s12) \/
             match read_unit 46%N s11 with
             | Some s' => read_digits 3 0 s'
             | None => Some (0, s11)
             end = None).
  { destruct (read_unit 46%N s11) as [s'|].
    - destruct (read_digits 3 0 s') as [[ms s12]|] eqn:E12.
      + exists ms, s12. left. split; [|reflexivity].
        exact (read_digits_three _ _ _ E12).
      + exists 0, []. now right.
    - exists 0, s11. left. split; [lia | reflexivity]. }
  destruct M as (ms & s12 & [[Rms E12]|E12]); rewrite E12 in H;
    [|discriminate].
  cbn [bind_opt] in H.
  destruct (read_unit 90%N s12) as [s13|]; [|discriminate].
  cbn [bind_opt] in H.
  destruct s13; [|discriminate].
  destruct (in_range 1 12 month) eqn:R1; [|discriminate].
  destruct (in_range 1 (DaysInMonth year (month - 1)) date) eqn:R2;
    [|discriminate].
  destruct (in_range 0 23 hour) eqn:R3; [|discriminate].
  destruct (in_range 0 59 mi) eqn:R4; [|discriminate].
  destruct (in_range 0 59 sec) eqn:R5; [|discriminate].
  cbn [andb] in H. injection H as <-.
  apply in_range_spec in R1, R2, R3, R4, R5.
  apply read_digits_four in E1 as (y1 & y2 & y3 & y4 & D1 & Hy1 & Hy2 & Hy3
                                   & Hy4 & Ey).
  apply read_unit_cons in E2, E4.
  apply read_digits_two in E3 as (m1 & m2 & D3 & Hm1 & Hm2 & Em).
  apply read_digits_two in E5 as (d1 & d2 & D5 & Hd1 & Hd2 & Ed).
  exists y1, y2, y3, y4, m1, m2, d1, d2, s5, year, month, date,
    (MakeTime hour mi sec ms).
  subst dt s1 s2 s3 s4.
  repeat (split; [first [reflexivity | assumption | lia]|]).
  split; [|reflexivity].
  unfold MakeTime, msPerDay. lia.
Qed.

Local Close Scope Z_scope.

(** ** The page around a run *)

Lemma str_eqb_neq (a b : str) : a <> b -> str_eqb a b = false.
Proof.
  intros N. destruct (str_eqb a b) eqn:E; [|reflexivity].
  apply str_eqb_eq in E. contradiction.
Qed.

Lemma resolve_other (u url : str) (store : list (str * Web.bytes)) :
  u <> url ->
  Web.resolve u (filter (fun e => negb (str_eqb (fst e) url)) store) =
  Web.resolve u store.
Proof.
  intros N.
  induction store as [|[k blob] store IH]; [reflexivity|].
  cbn [filter fst Web.resolve].
  destruct (str_eqb k url) eqn:E; cbn [negb].
  - apply str_eqb_eq in E. subst k.
    rewrite (str_eqb_neq url u) by congruence. exact IH.
  - cbn [Web.resolve]. now rewrite IH.
Qed.

Lemma opt_eqb_refl (x : option str) : Web.opt_eqb x x = true.
Proof. destruct x; [apply str_eqb_refl | reflexivity]. Qed.

Lemma anchor_eqb_refl (a : Web.Anchor) : Web.anchor_eqb a a = true.
Proof. unfold Web.anchor_eqb. now rewrite !opt_eqb_refl. Qed.

Lemma remove_first_last (a : Web.Anchor) (l : list Web.Anchor) :
  forallb (fun x => negb (Web.anchor_eqb x a)) l = true ->
  Web.remove_first a (l ++ [a]) Web.anchor_eqb = l.
Proof.
  induction l as [|x l IH]; intros H.
  - cbn [app Web.remove_first]. now rewrite anchor_eqb_refl.
  - cbn [forallb] in H. apply andb_true_iff in H as [Hx Hl].
    apply negb_true_iff in Hx.
    cbn [app Web.remove_first]. rewrite Hx. f_equal. now apply IH.
Qed.

Lemma repeat_snoc (A : Type) (x : A) (n : nat) :
  x :: repeat x n = repeat x n ++ [x].
Proof.
  induction n as [|n IH]; [reflexivity|].
  cbn [repeat app]. now rewrite <- IH.
Qed.

(** ** Objects *)

Lemma get_set_same (V : Type) (k : str) (v : V) (o : Plugin.object V) :
  Plugin.get k (Plugin.set k v o) = Some v.
Proof.
  induction o as [|[k' v'] o IH]; cbn [Plugin.set Plugin.get].
  - now rewrite str_eqb_refl.
  - destruct (str_eqb k' k) eqn:E; cbn [Plugin.get]; now rewrite E.
Qed.

Lemma get_set_other (V : Type) (k k' : str) (v : V) (o : Plugin.object V) :
  k <> k' -> Plugin.get k' (Plugin.set k v o) = Plugin.get k' o.
Proof.
  intros N.
  induction o as [|[k0 v0] o IH]; cbn [Plugin.set Plugin.get].
  - now rewrite (str_eqb_neq k k' N).
  - destruct (str_eqb k0 k) eqn:E; cbn [Plugin.get].
    + apply str_eqb_eq in E. subst k0.
      now rewrite (str_eqb_neq k k' N).
    + now rewrite IH.
Qed.

Lemma keys_set (V : Type) (k : str) (v : V) (o : Plugin.object V) :
  forall x, In x (Plugin.keys o) -> In x (Plugin.keys (Plugin.set k v o)).
Proof.
  induction o as [|[k0 v0] o IH]; intros x H; [destruct H|].
  cbn [Plugin.set]. destruct (str_eqb k0 k); [exact H|].
  destruct H as [H|H]; [now left | right; now apply IH].
Qed.

Lemma set_new (V : Type) (k : str) (v : V) (o : Plugin.object V) :
  ~ In k (Plugin.keys o) -> Plugin.set k v o = o ++ [(k, v)].
Proof.
  induction o as [|[k0 v0] o IH]; intros N; [reflexivity|].
  cbn [Plugin.set app].
  rewrite (str_eqb_neq k0 k) by (intros ->; apply N; now left).
  f_equal. apply IH. intros H. apply N. now right.
Qed.

(** The copy of an object (its keys are distinct) is the object. *)
Lemma spread_object (V : Type) (o : Plugin.object V) :
  NoDup (Plugin.keys o) -> Plugin.spread o = o.
Proof.
  unfold Plugin.spread.
  assert (G : forall acc,
             NoDup (Plugin.keys (acc ++ o)) ->
             fold_left (fun a kv => Plugin.set (fst kv) (snd kv) a) o acc
             = acc ++ o).
  { induction o as [|[k v] o IH]; intros acc N.
    - cbn [fold_left]. now rewrite app_nil_r.
    - cbn [fold_left fst snd].
      unfold Plugin.keys in N. rewrite map_app in N. cbn [map fst] in N.
      rewrite set_new by (apply NoDup_remove_2 in N; intros I; apply N;
                          apply in_or_app; now left).
      rewrite IH; [now rewrite <- app_assoc|].
      unfold Plugin.keys. rewrite <- app_assoc, map_app. exact N. }
  intros N. exact (G [] N).
Qed.

(** ** The short title, cut *)

Lemma title_of_cut (t : str) :
  title_of t = filter not_space (upto_space 2 (trim (strip t))).
Proof.
  unfold title_of, join_empty, array_slice0.
  rewrite sanitize_strip. apply concat_firstn_split.
Qed.

Lemma title_of_units (t : str) :
  Forall (fun c => kept c = true /\ not_space c = true) (title_of t).
Proof.
  rewrite title_of_cut.
  assert (K : Forall (fun c => kept c = true) (upto_space 2 (trim (strip t)))).
  { destruct (upto_space_prefix 2 (trim (strip t))) as [rest E].
    destruct (trim_stretch (strip t)) as (pre & post & E').
    assert (S : Forall (fun c => kept c = true) (strip t))
      by (apply Forall_forall; intros c H; now apply filter_In in H).
    rewrite E' in S. apply Forall_app in S as [_ S].
    apply Forall_app in S as [S _].
    rewrite E in S. now apply Forall_app in S as [S _]. }
  apply Forall_forall. intros c H. apply filter_In in H as [H N].
  split; [|exact N].
  rewrite Forall_forall in K. now apply K.
Qed.

Lemma title_of_length (t : str) : length (title_of t) <= length t.
Proof.
  rewrite title_of_cut.
  destruct (upto_space_prefix 2 (trim (strip t))) as [rest E].
  destruct (trim_stretch (strip t)) as (pre & post & E').
  pose proof (filter_length_le not_space (upto_space 2 (trim (strip t)))) as L1.
  pose proof (filter_length_le kept t) as L2. fold (strip t) in L2.
  apply (f_equal (@length _)) in E, E'.
  rewrite !length_app in *. lia.
Qed.

End MoreFacts.

(* ================================================================== *)
(** * Further properties of the card and of the plugin *)
(* ================================================================== *)

Import Shapes MoreFacts.

(** X1. A snippet made of plain stretches that open no bracket and
    bracketed stretches, each on one line and closing no bracket, comes out
    as the same stretches in the same order, every bracketed one inside the
    highlight span and nothing else changed. *)
Theorem highlight_marked_text (segs : list segment) :
  well_marked segs = true -> highlight (marked segs) = spans segs.
Proof.
  induction segs as [|g segs IH]; intros W; [reflexivity|].
  cbn [well_marked forallb] in W. apply andb_true_iff in W as [Wg Ws].
  cbn [marked spans flat_map]. fold (marked segs). fold (spans segs).
  destruct g as [s|s]; cbn [marked_segment span_segment well_marked_segment]
    in *.
  - rewrite (highlight_app_no_open s (marked segs) Wg). now rewrite IH.
  - apply andb_true_iff in Wg as [Wc Wd].
    cbn [app]. rewrite <- app_assoc. cbn [app].
    rewrite (highlight_hit s (marked segs) Wc Wd), <- !app_assoc.
    now rewrite IH.
Qed.

(** X2. The highlight works line by line: around any line terminator, the
    result is the highlight of what is before it, the terminator, and the
    highlight of what is after it.  No span runs across a line break. *)
Theorem highlight_line_by_line (a b : str) (c : unit16) :
  isLineTerminator c = true ->
  highlight (a ++ c :: b) = highlight a ++ c :: highlight b.
Proof. intros H. exact (highlight_line_break (length a) a c b (le_n _) H). Qed.

(** X3. The short title is the title, stripped and trimmed, cut before its
    third U+0020, without its U+0020: what stands between the first three
    single spaces is joined, whether it is a word, nothing at all, or holds
    other whitespace. *)
Theorem title_cut_before_third_space (t : str) :
  title_of t = filter not_space (upto_space 2 (trim (strip t))) /\
  exists rest, trim (strip t) = upto_space 2 (trim (strip t)) ++ rest.
Proof. split; [apply title_of_cut | apply upto_space_prefix]. Qed.

(** X4. Whatever the title, every unit of the short title is a letter a-z
    or A-Z, a digit, or whitespace other than U+0020 (so no punctuation and
    no path separator reaches the file name through the title), and the
    short title is no longer than the title. *)
Theorem title_units_safe (t : str) :
  Forall (fun c => kept c = true /\ unit_eqb c space = false) (title_of t) /\
  length (title_of t) <= length t.
Proof.
  split; [|apply title_of_length].
  eapply Forall_impl; [|apply title_of_units].
  intros c [K N]. split; [exact K|]. now apply negb_true_iff in N.
Qed.

Section FurtherDownload.

Variable API_BASE : str.
Variable LocalTZA : Z -> Z.
Variable hostDateParse : str -> option Z.
Variable hostToUpperCase : str -> str.

Local Abbreviation run :=
  (downloadTranscript API_BASE LocalTZA hostDateParse hostToUpperCase).
Local Abbreviation filename_on :=
  (filename_on LocalTZA hostDateParse hostToUpperCase).
Local Abbreviation answer := (answer API_BASE).
Local Abbreviation failure := (failure API_BASE).

(** X5. Whatever the datetime, the date of the file name is NaN-NaN-NaN or
    is made of decimal digits and hyphens only. *)
Theorem date_units_safe (dt : str) :
  date_str_of LocalTZA hostDateParse dt = lit "NaN-NaN-NaN" \/
  forallb digit_or_hyphen (date_str_of LocalTZA hostDateParse dt) = true.
Proof.
  destruct (parse hostDateParse dt) as [t|] eqn:P.
  - right. rewrite (date_str_of_valid LocalTZA _ _ _ P).
    pose proof (civil_of_time_spec (LocalTime LocalTZA t)) as (M & D & _).
    assert (D31 : (DaysInMonth (year (civil_of_time (LocalTime LocalTZA t)))
                     (month (civil_of_time (LocalTime LocalTZA t)) - 1)
                   <= 31)%Z).
    { unfold DaysInMonth. cbv zeta.
      destruct (DaysInYear _ =? 366)%Z;
        destruct (_ - 1)%Z as [|[[[|[]|]|[[]|[]|]|]|[[|[]|]|[[]|[]|]|]|]|];
        lia. }
    unfold written. rewrite !forallb_app.
    rewrite toString_digit_or_hyphen.
    rewrite !two_digits_digit_or_hyphen by lia. reflexivity.
  - left. now apply date_str_of_invalid.
Qed.

(** X6. A datetime of the form YYYY-MM-DDTHH:mm:ss(.sss)Z with every field
    in range and a year that does not start with 0, on a host where local
    time falls on the same day as UTC at that instant: the date of the file
    name is the first ten units of the datetime. *)
Theorem date_round_trip (dt : str) (t : Z) :
  parseUTCDateTime dt = Some t ->
  hd 48%N dt <> 48%N ->
  Day (LocalTime LocalTZA t) = Day t ->
  date_str_of LocalTZA hostDateParse dt = firstn 10 dt.
Proof.
  intros P Z0 SameDay.
  assert (P' : parse hostDateParse dt = Some t) by (unfold parse; now rewrite P).
  rewrite (date_str_of_valid LocalTZA _ _ _ P').
  rewrite (civil_of_time_same_day _ _ SameDay).
  destruct (parseUTCDateTime_date dt t P)
    as (y1 & y2 & y3 & y4 & m1 & m2 & d1 & d2 & rest & yr & mo & da & time
        & E & Hy1 & Hy2 & Hy3 & Hy4 & Hm1 & Hm2 & Hd1 & Hd2 & Ey & Em & Ed
        & Rm & Rd & Rt & Et).
  subst t dt. cbn [hd] in Z0.
  rewrite civil_of_MakeDay by (try lia; assumption).
  replace (mo - 1 + 1)%Z with mo by lia.
  unfold written. cbn [year month day firstn].
  destruct (digits_read_four y1 y2 y3 y4 Hy1 Hy2 Hy3 Hy4 Z0) as [_ Y].
  cbv zeta in Y. rewrite <- Ey in Y. rewrite Y.
  rewrite Em, Ed, (two_digits_read m1 m2 Hm1 Hm2),
    (two_digits_read d1 d2 Hd1 Hd2).
  reflexivity.
Qed.

(** X7. A run never touches the object URLs of others: any URL other than
    the one the run makes resolves afterwards as it did before, on every
    path. *)
Theorem other_object_urls_kept (m : Machine) (u : str) :
  u <> Web.objectURL (Web.issued (browser m)) ->
  Web.resolve u (Web.objectURLs (browser (snd (run m)))) =
  Web.resolve u (Web.objectURLs (browser m)).
Proof.
  intros N.
  destruct (answered_or_failed API_BASE m) as [(status & body & A & V)|(e & F)].
  - rewrite (run_success _ _ _ _ _ _ _ A V). cbn [snd browser Web.objectURLs].
    now apply resolve_other.
  - rewrite (run_failure _ _ _ _ _ _ F). reflexivity.
Qed.

(** X8. The anchor does not stay in the document: where no child of the
    body is that very anchor already, the body has the same children after
    a run as before it, on every path. *)
Theorem body_children_restored (m : Machine) :
  forallb
    (fun x =>
       negb (Web.anchor_eqb x
               (download_link (Web.objectURL (Web.issued (browser m)))
                  (filename_on m))))
    (Web.bodyChildren (browser m)) = true ->
  Web.bodyChildren (browser (snd (run m))) = Web.bodyChildren (browser m).
Proof.
  intros H.
  destruct (answered_or_failed API_BASE m) as [(status & body & A & V)|(e & F)].
  - rewrite (run_success _ _ _ _ _ _ _ A V). cbn [snd browser Web.bodyChildren].
    now apply remove_first_last.
  - rewrite (run_failure _ _ _ _ _ _ F). reflexivity.
Qed.

Lemma runs_success (status : Z) (body : Web.bytes) (n : nat) :
  forall m,
    answer m = Web.Response status body ->
    Web.validateStatus status = true ->
    exists new,
      Web.log (browser (runs n run m)) = Web.log (browser m) ++ new /\
      Web.saved new = repeat (filename_on m, body) n /\
      Web.requests new =
        repeat (transcript_url API_BASE (uid (result (this m)))) n /\
      Web.alerts new = [] /\
      Web.issued (browser (runs n run m)) =
        (Web.issued (browser m) + N.of_nat n)%N /\
      this (runs n run m) = this m.
Proof.
  induction n as [|n IH]; intros m A V.
  - exists []. cbn [runs repeat]. rewrite app_nil_r, N.add_0_r.
    repeat split.
  - cbn [runs]. rewrite (run_success _ _ _ _ _ _ _ A V). cbn [snd].
    match goal with
    | |- context [runs n _ ?m1] =>
        assert (A1 : answer m1 = Web.Response status body) by exact A;
        destruct (IH m1 A1 V) as (new & L & S & R & Al & I & T)
    end.
    cbn [browser Web.log Web.issued this] in L, I, T.
    eexists. rewrite L, <- app_assoc. split; [reflexivity|].
    unfold Web.saved, Web.requests, Web.alerts in *.
    rewrite !flat_map_app, S, R, Al.
    cbn [flat_map app repeat].
    split; [reflexivity|]. split; [reflexivity|]. split; [reflexivity|].
    split; [rewrite I; lia | exact T].
Qed.

(** X9. Clicking again downloads again: [n] runs, one after the other,
    against an endpoint that answers with an accepted status send [n]
    requests, save the same file [n] times under the same name, make [n]
    object URLs and show no alert. *)
Theorem repeated_downloads (m : Machine) (status : Z) (body : Web.bytes)
    (n : nat) :
  answer m = Web.Response status body ->
  Web.validateStatus status = true ->
  Web.saved (emitted m (runs n run m)) = repeat (filename_on m, body) n /\
  Web.requests (emitted m (runs n run m)) =
    repeat (transcript_url API_BASE (uid (result (this m)))) n /\
  Web.alerts (emitted m (runs n run m)) = [] /\
  Web.issued (browser (runs n run m)) = (Web.issued (browser m) + N.of_nat n)%N.
Proof.
  intros A V.
  destruct (runs_success status body n m A V) as (new & L & S & R & Al & I & _).
  unfold emitted. rewrite L, skipn_emitted. now repeat split.
Qed.

(** X10. A run whose request fails leaves the page as it was: the same live
    object URLs, none made, the same children of the body, the same
    component; only the log has grown. *)
Theorem failed_download_leaves_page (m : Machine) (e : Web.Error) :
  failure m = Some e ->
  Web.objectURLs (browser (snd (run m))) = Web.objectURLs (browser m) /\
  Web.issued (browser (snd (run m))) = Web.issued (browser m) /\
  Web.bodyChildren (browser (snd (run m))) = Web.bodyChildren (browser m) /\
  this (snd (run m)) = this m.
Proof.
  intros F. rewrite (run_failure _ _ _ _ _ _ F). now repeat split.
Qed.

End FurtherDownload.

(** X11. The icon aliases of the plugin hold mdiVideo and mdiDownload, so
    both icons that the buttons of the card name are there, whatever the
    icon set's own aliases are; every other alias of the icon set is kept
    with its icon, and none is lost. *)
Theorem plugin_aliases (Icon IconSet Component : Type)
    (aliases : Plugin.object Icon) (mdi : IconSet)
    (mdiVideo mdiDownload : Icon) (VDateInput : Component) :
  NoDup (Plugin.keys aliases) ->
  let registered :=
    Plugin.icon_aliases
      (Plugin.icons
         (Plugin.options aliases mdi mdiVideo mdiDownload VDateInput)) in
  Plugin.get (lit "mdiVideo") registered = Some mdiVideo /\
  Plugin.get (lit "mdiDownload") registered = Some mdiDownload /\
  (forall icon, In icon Plugin.card_icons ->
                Plugin.get (Plugin.alias_of icon) registered <> None) /\
  (forall k, k <> lit "mdiVideo" -> k <> lit "mdiDownload" ->
             Plugin.get k registered = Plugin.get k aliases) /\
  (forall k, In k (Plugin.keys aliases) -> In k (Plugin.keys registered)).
Proof.
  intros N. cbv zeta.
  unfold Plugin.options. cbn [Plugin.icons Plugin.icon_aliases].
  rewrite (spread_object _ aliases N).
  assert (V : Plugin.get (lit "mdiVideo")
                (Plugin.set (lit "mdiDownload") mdiDownload
                   (Plugin.set (lit "mdiVideo") mdiVideo aliases))
              = Some mdiVideo).
  { rewrite get_set_other by discriminate. apply get_set_same. }
  split; [exact V|]. split; [apply get_set_same|]. split; [|split].
  - intros icon [<-|[<-|[]]].
    + change (Plugin.alias_of (lit "$mdiVideo")) with (lit "mdiVideo").
      rewrite V. discriminate.
    + change (Plugin.alias_of (lit "$mdiDownload")) with (lit "mdiDownload").
      rewrite get_set_same. discriminate.
  - intros k N1 N2.
    rewrite get_set_other by congruence. now rewrite get_set_other by congruence.
  - intros k H. now apply keys_set, keys_set.
Qed.

Lemma highlight_marked_text_witness :
  well_marked [Plain (lit "the "); Hit (lit "budget"); Plain (lit " was ");
               Hit (lit "agreed")] = true /\
  highlight (lit "the [budget] was [agreed]") =
  lit "the " ++ span_open ++ lit "budget" ++ span_close ++ lit " was "
  ++ span_open ++ lit "agreed" ++ span_close.
Proof.
  split; [reflexivity|].
  exact (highlight_marked_text
           [Plain (lit "the "); Hit (lit "budget"); Plain (lit " was ");
            Hit (lit "agreed")] eq_refl).
Defined.

Lemma highlight_line_by_line_witness :
  isLineTerminator 10%N = true /\
  highlight (lit "[x" ++ 10%N :: lit "y] [z]") =
  lit "[x" ++ 10%N :: lit "y] " ++ span_open ++ lit "z" ++ span_close.
Proof.
  split; [reflexivity|].
  exact (eq_trans
           (highlight_line_by_line (lit "[x") (lit "y] [z]") 10%N eq_refl)
           eq_refl).
Defined.

Lemma date_round_trip_witness :
  parseUTCDateTime (lit "2024-03-05T10:00:00Z") = Some 1709632800000%Z /\
  hd 48%N (lit "2024-03-05T10:00:00Z") <> 48%N /\
  Day (LocalTime Example.utc 1709632800000) = Day 1709632800000 /\
  date_str_of Example.utc Example.no_host_parse (lit "2024-03-05T10:00:00Z")
  = lit "2024-03-05".
Proof.
  assert (Z0 : hd 48%N (lit "2024-03-05T10:00:00Z") <> 48%N) by discriminate.
  split; [reflexivity|]. split; [exact Z0|]. split; [reflexivity|].
  exact (date_round_trip Example.utc Example.no_host_parse
           (lit "2024-03-05T10:00:00Z") 1709632800000%Z eq_refl Z0 eq_refl).
Defined.

Lemma other_object_urls_kept_witness :
  lit "blob:other" <> Web.objectURL (Web.issued Shapes.busy) /\
  Web.resolve (lit "blob:other")
    (Web.objectURLs
       (browser (snd (Example.run (Example.card Example.march Shapes.busy)))))
  = Some [1%N; 2%N].
Proof.
  assert (N : lit "blob:other" <> Web.objectURL (Web.issued Shapes.busy))
    by (intros E; vm_compute in E; discriminate E).
  split; [exact N|].
  exact (other_object_urls_kept Example.api Example.utc Example.no_host_parse
           Example.plain_upper (Example.card Example.march Shapes.busy)
           (lit "blob:other") N).
Defined.

Lemma body_children_restored_witness :
  Web.bodyChildren
    (browser (snd (Example.run (Example.card Example.march Shapes.busy))))
  = [Web.mkAnchor (Some (lit "https://elsewhere.example")) None].
Proof.
  exact (body_children_restored Example.api Example.utc Example.no_host_parse
           Example.plain_upper (Example.card Example.march Shapes.busy)
           eq_refl).
Defined.

Lemma repeated_downloads_witness :
  ResultCard.answer Example.api (Example.card Example.march Example.online) =
    Web.Response 200 Example.transcript /\
  Web.validateStatus 200 = true /\
  Web.saved
    (emitted (Example.card Example.march Example.online)
       (runs 3 Example.run (Example.card Example.march Example.online)))
  = repeat (lit "Council-FullCouncilMeeting-[2024-03-05].txt",
            Example.transcript) 3.
Proof.
  split; [reflexivity|]. split; [reflexivity|].
  exact (proj1 (repeated_downloads Example.api Example.utc
                  Example.no_host_parse Example.plain_upper
                  (Example.card Example.march Example.online) 200%Z
                  Example.transcript 3 eq_refl eq_refl)).
Defined.

Lemma failed_download_leaves_page_witness :
  ResultCard.failure Example.api (Example.card Example.march Example.offline)
    = Some Web.NetworkError /\
  Web.objectURLs
    (browser (snd (Example.run (Example.card Example.march Example.offline))))
  = [] /\
  Web.bodyChildren
    (browser (snd (Example.run (Example.card Example.march Example.offline))))
  = [].
Proof.
  split; [reflexivity|].
  destruct (failed_download_leaves_page Example.api Example.utc
              Example.no_host_parse Example.plain_upper
              (Example.card Example.march Example.offline) Web.NetworkError
              eq_refl) as (U & _ & B & _).
  exact (conj U B).
Defined.

Lemma plugin_aliases_witness :
  NoDup (Plugin.keys Plugin.sample_aliases) /\
  Plugin.get (lit "mdiDownload")
    (Plugin.icon_aliases
       (Plugin.icons (Plugin.options Plugin.sample_aliases tt 7 8 tt)))
  = Some 8 /\
  Plugin.get (lit "menu")
    (Plugin.icon_aliases
       (Plugin.icons (Plugin.options Plugin.sample_aliases tt 7 8 tt)))
  = Some 2.
Proof.
  assert (N : NoDup (Plugin.keys Plugin.sample_aliases)).
  { repeat constructor.
    - intros [E|[]]. vm_compute in E. discriminate E.
    - intros []. }
  split; [exact N|].
  destruct (plugin_aliases nat unit unit Plugin.sample_aliases tt 7 8 tt N)
    as (_ & D & _ & O & _).
  split; [exact D|].
  rewrite (O (lit "menu")); [reflexivity | discriminate | discriminate].
Defined.
